(** * Shallow embedding of the request/session layer and the XML
    transformation pipeline of mcp-abap-adt (src/src/lib/utils.ts,
    src/src/handlers/handleCdsOperations.ts, server.ts).

    Strings are Rocq [string]s, read as the UTF-8 byte sequences that
    Node's [Buffer] works on. *)

From Stdlib Require Import String Ascii List NArith ZArith Bool Lia Permutation.
Import ListNotations.
Open Scope string_scope.
Local Set Warnings "-register-all".

(* ------------------------------------------------------------------ *)
(** ** String helpers used by the TypeScript code *)

Module Str.

(** [s.startsWith(p)] *)
Fixpoint startsWith (p s : string) : bool :=
  match p, s with
  | EmptyString, _ => true
  | String c p', String d s' => Ascii.eqb c d && startsWith p' s'
  | String _ _, EmptyString => false
  end.

(** [s.includes(p)] *)
Fixpoint includes (p s : string) : bool :=
  startsWith p s ||
  match s with
  | EmptyString => false
  | String _ s' => includes p s'
  end.

(** [xs.join(sep)] *)
Fixpoint join (sep : string) (xs : list string) : string :=
  match xs with
  | [] => ""
  | [x] => x
  | x :: xs' => x ++ sep ++ join sep xs'
  end.

(** JavaScript truthiness of a possibly undefined string: [undefined]
    and [""] are falsy. *)
Definition truthy (o : option string) : option string :=
  match o with
  | Some s => if String.eqb s "" then None else Some s
  | None => None
  end.

Definition is_truthy (o : option string) : bool :=
  match truthy o with Some _ => true | None => false end.

(** Base64 encoding of a byte string, as [Buffer.toString('base64')]. *)
Definition b64char (n : nat) : ascii :=
  match String.get n
    "ABCDEFGHIJKLMNOPQRSTUVWXYZabcdefghijklmnopqrstuvwxyz0123456789+/" with
  | Some c => c
  | None => "="%char
  end.

Fixpoint base64_bytes (bs : list nat) : string :=
  match bs with
  | [] => ""
  | [a] =>
      String (b64char (a / 4)) (String (b64char ((a mod 4) * 16))
        (String "=" (String "=" EmptyString)))
  | [a; b] =>
      String (b64char (a / 4))
        (String (b64char ((a mod 4) * 16 + b / 16))
        (String (b64char ((b mod 16) * 4)) (String "=" EmptyString)))
  | a :: b :: c :: rest =>
      String (b64char (a / 4))
        (String (b64char ((a mod 4) * 16 + b / 16))
        (String (b64char ((b mod 16) * 4 + c / 64))
        (String (b64char (c mod 64)) (base64_bytes rest))))
  end.

Definition base64 (s : string) : string :=
  base64_bytes (map nat_of_ascii (list_ascii_of_string s)).

End Str.


(* ------------------------------------------------------------------ *)
(** ** Configuration (server.ts: [getConfig]) *)

Module Config.

(** The process environment variables the configuration is read from. *)
Record Env := mkEnv {
  SAP_URL : option string;
  SAP_USERNAME : option string;
  SAP_PASSWORD : option string;
  SAP_CLIENT : option string;
  RETURN_RAW_XML : option string
}.

Record SapConfig := mkConfig {
  url : string;
  username : string;
  password : string;
  client : string
}.

Definition missing_vars_msg : string :=
  "Missing required environment variables. Required variables:
- SAP_URL
- SAP_USERNAME
- SAP_PASSWORD
- SAP_CLIENT".

(** [getConfig()]: [inl msg] is a thrown [Error(msg)]. *)
Definition getConfig (e : Env) : string + SapConfig :=
  match Str.truthy (SAP_URL e), Str.truthy (SAP_USERNAME e),
        Str.truthy (SAP_PASSWORD e), Str.truthy (SAP_CLIENT e) with
  | Some u, Some n, Some p, Some c => inr (mkConfig u n p c)
  | _, _, _, _ => inl missing_vars_msg
  end.

End Config.

(* ------------------------------------------------------------------ *)
(** ** JavaScript values, as produced by xml-js in compact mode and read
    by the transformers *)

Module JS.

(** The code only produces integral Numbers: [JNum n] is the integral
    Number [n] (read as the double nearest to [n] where [String] formats
    it; [parseInt] rounds before building one), [JInf neg] is Infinity or
    -Infinity, [JNaN] is NaN. Plain objects keep their own properties in
    insertion order; [JBuiltin owner key] is the built-in function a
    prototype [owner] holds under [key]; [JProto owner] is a prototype
    object itself. *)
Inductive jsval :=
| JUndefined
| JNull
| JBool (b : bool)
| JNum (n : Z)
| JNaN
| JInf (neg : bool)
| JStr (s : string)
| JArr (items : list jsval)
| JObj (fields : list (string * jsval))
| JBuiltin (owner key : string)
| JProto (owner : string).

Definition object_proto_keys : list string :=
  ["constructor"; "hasOwnProperty"; "isPrototypeOf"; "propertyIsEnumerable";
   "toLocaleString"; "toString"; "valueOf"; "__defineGetter__";
   "__defineSetter__"; "__lookupGetter__"; "__lookupSetter__"; "__proto__"].

Definition array_proto_keys : list string :=
  ["at"; "concat"; "copyWithin"; "entries"; "every"; "fill"; "filter"; "find";
   "findIndex"; "findLast"; "findLastIndex"; "flat"; "flatMap"; "forEach";
   "includes"; "indexOf"; "join"; "keys"; "lastIndexOf"; "map"; "pop"; "push";
   "reduce"; "reduceRight"; "reverse"; "shift"; "slice"; "some"; "sort";
   "splice"; "toLocaleString"; "toReversed"; "toSorted"; "toSpliced";
   "toString"; "unshift"; "values"; "with"; "constructor"].

Definition string_proto_keys : list string :=
  ["at"; "charAt"; "charCodeAt"; "codePointAt"; "concat"; "endsWith";
   "includes"; "indexOf"; "lastIndexOf"; "localeCompare"; "match"; "matchAll";
   "normalize"; "padEnd"; "padStart"; "repeat"; "replace"; "replaceAll";
   "search"; "slice"; "split"; "startsWith"; "substring"; "substr";
   "toLocaleLowerCase"; "toLocaleUpperCase"; "toLowerCase"; "toString";
   "toUpperCase"; "trim"; "trimEnd"; "trimStart"; "valueOf"; "constructor";
   "isWellFormed"; "toWellFormed"; "anchor"; "big"; "blink"; "bold";
   "fixed"; "fontcolor"; "fontsize"; "italics"; "link"; "small"; "strike";
   "sub"; "sup"; "trimLeft"; "trimRight"].

Definition mem (k : string) (l : list string) : bool :=
  existsb (String.eqb k) l.

Fixpoint own (fs : list (string * jsval)) (k : string) : option jsval :=
  match fs with
  | [] => None
  | (k', v) :: fs' => if String.eqb k k' then Some v else own fs' k
  end.

(** Decimal digits of a natural number, as [String(n)]. *)
Fixpoint digits_rev (fuel n : nat) : list ascii :=
  match fuel with
  | O => []
  | S f => ascii_of_nat (48 + n mod 10) ::
             (if Nat.ltb n 10 then [] else digits_rev f (n / 10))
  end.

Definition nat_to_string (n : nat) : string :=
  string_of_list_ascii (rev (digits_rev (S n) n)).

(** [k] is the canonical string of an index below [len]. *)
Definition index_key (k : string) (len : nat) : option nat :=
  let fix find i :=
    match i with
    | O => None
    | S i' => if String.eqb k (nat_to_string i') then Some i' else find i'
    end in
  find len.

(** A member inherited from [Object.prototype]. *)
Definition object_member (k : string) : jsval :=
  if String.eqb k "__proto__" then JNull else JBuiltin "Object.prototype" k.

(** Property read [v[k]] on a value that is neither undefined nor null.
    Members of the Boolean, Number and Function prototypes other than the
    ones inherited from [Object.prototype] are not modelled; the code never
    reads them. *)
Definition get (v : jsval) (k : string) : jsval :=
  match v with
  | JObj fs =>
      match own fs k with
      | Some x => x
      | None =>
          if String.eqb k "__proto__" then JProto "Object"
          else if mem k object_proto_keys then object_member k
          else JUndefined
      end
  | JArr xs =>
      match index_key k (length xs) with
      | Some i => nth i xs JUndefined
      | None =>
          if String.eqb k "length" then JNum (Z.of_nat (length xs))
          else if String.eqb k "__proto__" then JProto "Array"
          else if mem k array_proto_keys then JBuiltin "Array.prototype" k
          else if mem k object_proto_keys then object_member k
          else JUndefined
      end
  | JStr s =>
      match index_key k (String.length s) with
      | Some i => match String.get i s with
                  | Some c => JStr (String c EmptyString)
                  | None => JUndefined
                  end
      | None =>
          if String.eqb k "length" then JNum (Z.of_nat (String.length s))
          else if String.eqb k "__proto__" then JProto "String"
          else if mem k string_proto_keys then JBuiltin "String.prototype" k
          else if mem k object_proto_keys then object_member k
          else JUndefined
      end
  | JProto o =>
      if String.eqb o "Array" && mem k array_proto_keys
      then JBuiltin "Array.prototype" k
      else if String.eqb o "String" && mem k string_proto_keys
      then JBuiltin "String.prototype" k
      else if String.eqb o "Object" then
        if String.eqb k "__proto__" then JNull
        else if mem k object_proto_keys then object_member k else JUndefined
      else if String.eqb k "__proto__" then JProto "Object"
      else if mem k object_proto_keys then object_member k
      else JUndefined
  | JBool _ => if String.eqb k "__proto__" then JProto "Boolean"
                else if mem k object_proto_keys then object_member k else JUndefined
  | JNum _ | JNaN | JInf _ =>
      if String.eqb k "__proto__" then JProto "Number"
      else if mem k object_proto_keys then object_member k else JUndefined
  | JBuiltin _ _ =>
      if String.eqb k "__proto__" then JProto "Function"
      else if mem k object_proto_keys then object_member k else JUndefined
  | JUndefined | JNull => JUndefined
  end.

Definition is_some {A} (o : option A) : bool :=
  match o with Some _ => true | None => false end.

(** [k in v], for [v] an object. *)
Definition has (v : jsval) (k : string) : bool :=
  match v with
  | JObj fs => is_some (own fs k) || mem k object_proto_keys
  | JArr xs => is_some (index_key k (length xs)) || String.eqb k "length" ||
               mem k array_proto_keys || mem k object_proto_keys
  | JProto o =>
      (String.eqb o "Array" && mem k array_proto_keys) ||
      (String.eqb o "String" && (mem k string_proto_keys || String.eqb k "length")) ||
      mem k object_proto_keys
  | _ => false
  end.

Definition is_nullish (v : jsval) : bool :=
  match v with JUndefined | JNull => true | _ => false end.

(** [v?.[k]] *)
Definition opt_get (v : jsval) (k : string) : jsval :=
  if is_nullish v then JUndefined else get v k.

Definition truthy (v : jsval) : bool :=
  match v with
  | JUndefined | JNull | JNaN => false
  | JBool b => b
  | JNum n => negb (Z.eqb n 0)
  | JStr s => negb (String.eqb s "")
  | _ => true
  end.

(** [typeof v === 'object'] *)
Definition is_object_type (v : jsval) : bool :=
  match v with
  | JNull | JArr _ | JObj _ | JProto _ => true
  | _ => false
  end.

(** [a || b] *)
Definition or (a b : jsval) : jsval := if truthy a then a else b.

(** Strict member access [v.k]: reading from undefined or null throws a
    [TypeError]. *)
Definition get_strict (v : jsval) (k : string) : string + jsval :=
  if is_nullish v then
    inl ("Cannot read properties of " ++ (match v with JNull => "null" | _ => "undefined" end)
         ++ " (reading '" ++ k ++ "')")
  else inr (get v k).

End JS.

(* ------------------------------------------------------------------ *)
(** ** Session state and the authenticated request executor
    (utils.ts: [createAxiosInstance], [cleanup], [getAuthHeaders],
    [fetchCsrfToken], [makeAdtRequest]) *)

Module Session.
Import Config JS.

(** Header objects as insertion-ordered association lists. *)
Definition headers := list (string * string).

(** [obj[k] = v] on a plain object: an existing key keeps its position. *)
Fixpoint set_header (h : headers) (k v : string) : headers :=
  match h with
  | [] => [(k, v)]
  | (k', v') :: h' =>
      if String.eqb k k' then (k, v) :: h' else (k', v') :: set_header h' k v
  end.

Fixpoint header (h : headers) (k : string) : option string :=
  match h with
  | [] => None
  | (k', v) :: h' => if String.eqb k k' then Some v else header h' k
  end.

(** An HTTP response as axios hands it over: status, the two headers
    the code reads ([x-csrf-token], [set-cookie]) and [data], the body.
    With the default [responseType] axios tries [JSON.parse] on a
    non-empty text body and keeps the text when that fails, so [data] is
    the body text (an XML document, an HTML page, a plain message) or the
    value of a JSON body (an object, an array, a number, ...), and
    [undefined] for a response without a body. *)
Record response := mkResponse {
  status : Z;
  hdr_csrf : option string;
  hdr_set_cookie : option (list string);
  data : jsval
}.

(** A request configuration as passed to the axios instance. *)
Record request := mkRequest {
  rq_method : string;
  rq_url : string;
  rq_headers : headers;
  rq_timeout : option Z;
  rq_params : option (list (string * string));
  rq_data : option string
}.

(** What one exchange with the backend yields: a 2xx response, or an
    [AxiosError] (non-2xx reply with its response, or a timeout or network
    failure without one). *)
Inductive outcome :=
| Ok (r : response)
| Fail (message : string) (resp : option response).

(** Thrown values: an [AxiosError], a plain [Error(message)], or the
    [TypeError] the engine throws for a call of a non-function. *)
Inductive error :=
| AxiosError (message : string) (resp : option response)
| Error (message : string)
| TypeError (message : string).

Definition error_message (e : error) : string :=
  match e with AxiosError m _ => m | Error m => m | TypeError m => m end.

(** The module-level state of utils.ts, together with the environment,
    the backend (the outcomes of the next exchanges, in order) and the
    log of every request sent. *)
Record Session := mkSession {
  env : Env;
  axiosInstance : bool;
  config : option SapConfig;
  csrfToken : option string;
  cookies : option string;
  net : list outcome;
  sent : list request
}.

Definition set_axios (s : Session) b :=
  mkSession (env s) b (config s) (csrfToken s) (cookies s) (net s) (sent s).
Definition set_config (s : Session) c :=
  mkSession (env s) (axiosInstance s) c (csrfToken s) (cookies s) (net s) (sent s).
Definition set_csrf (s : Session) t :=
  mkSession (env s) (axiosInstance s) (config s) t (cookies s) (net s) (sent s).
Definition set_cookies (s : Session) c :=
  mkSession (env s) (axiosInstance s) (config s) (csrfToken s) c (net s) (sent s).
Definition set_net (s : Session) n l :=
  mkSession (env s) (axiosInstance s) (config s) (csrfToken s) (cookies s) n l.

(** A state and exception monad: an async function that may throw. *)
Definition M (A : Type) := Session -> (error + A) * Session.

Definition ret {A} (a : A) : M A := fun s => (inr a, s).
Definition bind {A B} (m : M A) (k : A -> M B) : M B :=
  fun s => match m s with
           | (inl e, s') => (inl e, s')
           | (inr a, s') => k a s'
           end.
Definition throw {A} (e : error) : M A := fun s => (inl e, s).
(** [try { m } catch (e) { h(e) }] *)
Definition try_catch {A} (m : M A) (h : error -> M A) : M A :=
  fun s => match m s with
           | (inl e, s') => h e s'
           | (inr a, s') => (inr a, s')
           end.
Definition get : M Session := fun s => (inr s, s).
Definition modify (f : Session -> Session) : M unit := fun s => (inr tt, f s).

Notation "x <- m ;; k" := (bind m (fun x => k))
  (at level 61, m at next level, right associativity).

(** [createAxiosInstance()] *)
Definition createAxiosInstance : M unit := modify (fun s => set_axios s true).

(** How a failed exchange surfaces: axios rejects with an [AxiosError]. *)
Definition outcome_result (o : outcome) : error + response :=
  match o with Ok r => inr r | Fail m r => inl (AxiosError m r) end.

(** The outcome of the next exchange; an exhausted backend behaves as an
    unreachable host. *)
Definition next_outcome (n : list outcome) : outcome :=
  match n with
  | o :: _ => o
  | [] => Fail "connect ECONNREFUSED" None
  end.

(** [createAxiosInstance()(rq)]: one exchange with the backend. *)
Definition http (rq : request) : M response :=
  _ <- createAxiosInstance ;;
  fun s => (outcome_result (next_outcome (net s)),
            set_net s (tl (net s)) ((sent s ++ [rq])%list)).

(** [cleanup()] *)
Definition cleanup (s : Session) : Session :=
  mkSession (env s) false None None None (net s) (sent s).

Definition auth_headers (c : SapConfig) : headers :=
  [("Authorization", "Basic " ++ Str.base64 (username c ++ ":" ++ password c));
   ("X-SAP-Client", client c)].

(** [getAuthHeaders()] *)
Definition getAuthHeaders : M headers :=
  s <- get ;;
  c <- (match config s with
        | Some c => ret c
        | None =>
            match getConfig (env s) with
            | inr c => _ <- modify (fun s => set_config s (Some c)) ;; ret c
            | inl m => throw (Error m)
            end
        end) ;;
  ret (auth_headers c).

(** [if (h['set-cookie']) cookies = h['set-cookie'].join('; ')] *)
Definition store_cookies (r : response) : M unit :=
  match hdr_set_cookie r with
  | Some l => modify (fun s => set_cookies s (Some (Str.join "; " l)))
  | None => ret tt
  end.

(** [fetchCsrfToken(url)]; the callee [createAxiosInstance()] is
    evaluated before the header object. *)
Definition fetchCsrfToken (url : string) : M string :=
  try_catch
    (_ <- createAxiosInstance ;;
     h <- getAuthHeaders ;;
     response <- http (mkRequest "GET" url ((h ++ [("x-csrf-token", "fetch")])%list)
                                 None None None) ;;
     match Str.truthy (hdr_csrf response) with
     | None => throw (Error "No CSRF token in response headers")
     | Some token => _ <- store_cookies response ;; ret token
     end)
    (fun error =>
       match error with
       | AxiosError _ (Some r) =>
           match Str.truthy (hdr_csrf r) with
           | Some token => _ <- store_cookies r ;; ret token
           | None => throw (Error ("Failed to fetch CSRF token: " ++ error_message error))
           end
       | _ => throw (Error ("Failed to fetch CSRF token: " ++ error_message error))
       end).

Definition is_post_or_put (method : string) : bool :=
  String.eqb method "POST" || String.eqb method "PUT".

Definition csrf_required_msg : string :=
  "CSRF token is required for POST/PUT requests but could not be fetched".

(** makeAdtRequest, lines 168-175: token bootstrap for POST/PUT. *)
Definition ensureCsrfToken (url method : string) : M unit :=
  s <- get ;;
  if is_post_or_put method && negb (Str.is_truthy (csrfToken s)) then
    try_catch
      (token <- fetchCsrfToken url ;; modify (fun s => set_csrf s (Some token)))
      (fun _ => throw (Error csrf_required_msg))
  else ret tt.

(** makeAdtRequest, lines 177-202: the request configuration. *)
Definition buildRequestConfig (url method : string) (timeout : Z)
    (data : option string) (params : option (list (string * string))) : M request :=
  auth <- getAuthHeaders ;;
  s <- get ;;
  let h1 := match Str.truthy (csrfToken s) with
            | Some t => if is_post_or_put method then set_header auth "x-csrf-token" t
                        else auth
            | None => auth
            end in
  let h2 := match Str.truthy (cookies s) with
            | Some c => set_header h1 "Cookie" c
            | None => h1
            end in
  ret (mkRequest method url h2 (Some timeout) params (Str.truthy data)).

(** [data?.includes('CSRF')] for the [data] of a response: [undefined]
    or [null] short-circuits to [undefined]; a string and an array have an
    [includes] method ([Array.prototype.includes] compares the elements
    with ["CSRF"] by SameValueZero); any other value (a JSON object, a
    number, a boolean) has none, and the call throws a [TypeError]
    ([None] here). *)
Definition data_includes_csrf (d : jsval) : option bool :=
  match d with
  | JUndefined | JNull => Some false
  | JStr s => Some (Str.includes "CSRF" s)
  | JArr xs => Some (existsb (fun x => match x with JStr s => String.eqb s "CSRF" | _ => false end) xs)
  | _ => None
  end.

(** The message V8 gives that [TypeError]: the callee as written in the
    compiled code (the repository has no compiler configuration; this is
    the text when [?.] is kept, an ES2020 or later target). *)
Definition includes_not_function : string :=
  "error.response.data?.includes is not a function".

(** [error.response?.status === 403 && error.response.data?.includes('CSRF')]
    for an [AxiosError] with a response: [inr] of the condition, or the
    [TypeError] of the [includes] call. The call is only made for a 403. *)
Definition csrf_rejected (r : response) : error + bool :=
  if Z.eqb (status r) 403 then
    match data_includes_csrf (data r) with
    | Some b => inr b
    | None => inl (TypeError includes_not_function)
    end
  else inr false.

Definition with_token (rq : request) (t : string) : request :=
  mkRequest (rq_method rq) (rq_url rq) (set_header (rq_headers rq) "x-csrf-token" t)
            (rq_timeout rq) (rq_params rq) (rq_data rq).

(** makeAdtRequest, lines 204-216: send, with one retry after a
    rejected CSRF token. *)
Definition sendWithCsrfRetry (url : string) (config : request) : M response :=
  try_catch (http config)
    (fun error =>
       match error with
       | AxiosError _ (Some r) =>
           match csrf_rejected r with
           | inr true =>
               token <- fetchCsrfToken url ;;
               _ <- modify (fun s => set_csrf s (Some token)) ;;
               http (with_token config token)
           | inr false => throw error
           | inl e => throw e
           end
       | _ => throw error
       end).

(** [makeAdtRequest(url, method, timeout, data, params)] *)
Definition makeAdtRequest (url method : string) (timeout : Z)
    (data : option string) (params : option (list (string * string))) : M response :=
  _ <- ensureCsrfToken url method ;;
  config <- buildRequestConfig url method timeout data params ;;
  sendWithCsrfRetry url config.

End Session.

(* ------------------------------------------------------------------ *)
(** ** Vocabulary for the executor's properties *)

Module SessionFacts.
Import Config Session.

(** The configuration [getAuthHeaders] works with in state [s]. *)
Definition config_of (s : Session) : option SapConfig :=
  match config s with
  | Some c => Some c
  | None => match getConfig (env s) with inr c => Some c | inl _ => None end
  end.

Definition outcome_response (o : outcome) : option response :=
  match o with Ok r => Some r | Fail _ r => r end.

(** The token a bootstrap exchange yields: read from the response
    headers, or from the headers of the error response. *)
Definition exchange_token (o : outcome) : option string :=
  match outcome_response o with
  | Some r => Str.truthy (hdr_csrf r)
  | None => None
  end.

(** The cookie string after the exchange [o] supplied a token. *)
Definition cookies_after (o : outcome) (old : option string) : option string :=
  match outcome_response o with
  | Some r => match hdr_set_cookie r with
              | Some l => Some (Str.join "; " l)
              | None => old
              end
  | None => old
  end.

(** The first attempt was refused because of the CSRF token: a 403
    whose body is a text containing "CSRF" (or an array holding the
    string "CSRF"). *)
Definition is_csrf_rejection (o : outcome) : bool :=
  match o with
  | Fail _ (Some r) => match csrf_rejected r with inr b => b | inl _ => false end
  | _ => false
  end.

(** The retry test itself throws: a 403 whose body is a JSON value other
    than a string or an array. *)
Definition csrf_check_throws (o : outcome) : bool :=
  match o with
  | Fail _ (Some r) => match csrf_rejected r with inl _ => true | inr _ => false end
  | _ => false
  end.

(** The message of the error [fetchCsrfToken] throws when [o] yields
    no token. *)
Definition fetch_failure (o : outcome) : string :=
  "Failed to fetch CSRF token: " ++
  match o with
  | Ok _ => "No CSRF token in response headers"
  | Fail m _ => m
  end.

(** The token bootstrap request. *)
Definition bootstrap_request (url : string) (c : SapConfig) : request :=
  mkRequest "GET" url (auth_headers c ++ [("x-csrf-token", "fetch")])%list None None None.

(** The cached token of [s'] is the one of [s], or a fresh non-empty one. *)
Definition token_kept (s s' : Session) : Prop :=
  csrfToken s' = csrfToken s \/
  exists tok, csrfToken s' = Some tok /\ Str.truthy (Some tok) = Some tok.

(** A request that [makeAdtRequest(url, method, _, _, params)] may send
    with the configuration [c]: the request itself (first attempt or retry)
    or the token bootstrap, each with the authentication headers of [c]. *)
Definition adt_request_ok (url method : string) (params : option (list (string * string)))
    (c : SapConfig) (rq : request) : Prop :=
  rq_url rq = url /\
  header (rq_headers rq) "Authorization"
    = Some ("Basic " ++ Str.base64 (username c ++ ":" ++ password c)) /\
  header (rq_headers rq) "X-SAP-Client" = Some (client c) /\
  ((rq_method rq = method /\ rq_params rq = params) \/ rq = bootstrap_request url c).

End SessionFacts.


(* ------------------------------------------------------------------ *)
(** ** XML navigation (utils.ts: [xmlNode], [xmlArray]) *)

Module Xml.
Import JS.

(** The loop of [xmlNode]: [None] is the early [return undefined]. *)
Fixpoint walk (current : jsval) (path : list string) : option jsval :=
  match path with
  | [] => Some current
  | key :: path' =>
      if truthy current && is_object_type current && has current key
      then walk (get current key) path'
      else None
  end.

(** [xmlNode(obj, ...path)] *)
Definition xmlNode (obj : jsval) (path : list string) : jsval :=
  match walk obj path with
  | None => JUndefined
  | Some current => or (opt_get current "_text") current
  end.

(** [xmlArray(obj, ...path)] *)
Definition xmlArray (obj : jsval) (path : list string) : list jsval :=
  let node := xmlNode obj path in
  if negb (truthy node) then []
  else match node with
       | JArr xs => xs
       | _ => [node]
       end.

End Xml.

(* ------------------------------------------------------------------ *)
(** ** Package-info transformer (utils.ts: [transformPackageInfo]) *)

Module Package.
Import JS.

(** A computation that may throw a [TypeError]. *)
Definition result (A : Type) := (string + A)%type.

Definition rbind {A B} (m : result A) (k : A -> result B) : result B :=
  match m with inl e => inl e | inr a => k a end.

Notation "x <-- m ;; k" := (rbind m (fun x => k))
  (at level 61, m at next level, right associativity).

Fixpoint filter_r (p : jsval -> result bool) (xs : list jsval) : result (list jsval) :=
  match xs with
  | [] => inr []
  | x :: xs' =>
      b <-- p x ;;
      ys <-- filter_r p xs' ;;
      inr (if b then x :: ys else ys)
  end.

Fixpoint map_r (f : jsval -> result jsval) (xs : list jsval) : result (list jsval) :=
  match xs with
  | [] => inr []
  | x :: xs' => y <-- f x ;; ys <-- map_r f xs' ;; inr (y :: ys)
  end.

(** [node.OBJECT_NAME?._text && node.OBJECT_URI?._text] *)
Definition keep_node (node : jsval) : result bool :=
  name <-- get_strict node "OBJECT_NAME" ;;
  if truthy (opt_get name "_text") then
    uri <-- get_strict node "OBJECT_URI" ;;
    inr (truthy (opt_get uri "_text"))
  else inr false.

(** The record built for a surviving node. *)
Definition node_record (node : jsval) : result jsval :=
  ty <-- get_strict node "OBJECT_TYPE" ;; ty_text <-- get_strict ty "_text" ;;
  nm <-- get_strict node "OBJECT_NAME" ;; nm_text <-- get_strict nm "_text" ;;
  ds <-- get_strict node "DESCRIPTION" ;;
  ur <-- get_strict node "OBJECT_URI" ;; ur_text <-- get_strict ur "_text" ;;
  inr (JObj [("OBJECT_TYPE", ty_text); ("OBJECT_NAME", nm_text);
             ("OBJECT_DESCRIPTION", opt_get ds "_text"); ("OBJECT_URI", ur_text)]).





(** [transformPackageInfo(parsed)] *)
Definition transformPackageInfo (parsed : jsval) : result jsval :=
  abap <-- get_strict parsed "asx:abap" ;;
  let nodes := or (opt_get (opt_get (opt_get (opt_get abap "asx:values") "DATA")
                                    "TREE_CONTENT") "SEU_ADT_REPOSITORY_OBJ_NODE")
                  (JArr []) in
  let list := match nodes with JArr xs => xs | _ => [nodes] end in
  kept <-- filter_r keep_node list ;;
  extractedData <-- map_r node_record kept ;;
  inr (JObj [("type", JStr "package_info");
             ("totalObjects", JNum (Z.of_nat (length extractedData)));
             ("objects", JArr extractedData)]).

End Package.

(* ------------------------------------------------------------------ *)
(** ** Transformation dispatch (utils.ts: [return_response]) *)

Module Dispatch.
Import JS.

(** [{ isError, content: [{ type: 'text', text }] }] *)
Record envelope := mkEnvelope {
  isError : bool;
  content_type : string;
  text : jsval
}.

Definition text_envelope (t : jsval) : envelope := mkEnvelope false "text" t.

Section ReturnResponse.

(** The libraries [return_response] calls, each of which may throw
    (an [inl] carries the message): xml-js's [xml2js] behind [fullParse],
    and [JSON.stringify(_, null, 2)]. *)
Variable fullParse : jsval -> string + jsval.
Variable stringify : jsval -> string + jsval.

(** [return_response(response, jsonTransformer)]: [RETURN_RAW_XML] is the
    environment variable, [data] is [response.data], a transformer may
    throw. *)
Definition return_response (RETURN_RAW_XML : option string) (data : jsval)
    (jsonTransformer : option (jsval -> string + jsval)) : envelope :=
  let returnRawXml :=
    match RETURN_RAW_XML with Some v => String.eqb v "true" | None => false end in
  match jsonTransformer with
  | Some transformer =>
      if returnRawXml then text_envelope data
      else
        match fullParse data with
        | inl _ => text_envelope data
        | inr parsed =>
            match transformer parsed with
            | inl _ => text_envelope data
            | inr transformed =>
                match stringify transformed with
                | inl _ => text_envelope data
                | inr t => text_envelope t
                end
            end
        end
  | None => text_envelope data
  end.

End ReturnResponse.

End Dispatch.

(* ------------------------------------------------------------------ *)
(** ** Metadata property bags (handleCdsOperations.ts: [parseDDICProps]) *)

Module Ddic.
Import JS Xml Package.

Fixpoint digitsN_rev (fuel : nat) (n : N) : list ascii :=
  match fuel with
  | O => []
  | S f => ascii_of_N (48 + N.modulo n 10) ::
             (if N.ltb n 10 then [] else digitsN_rev f (N.div n 10))
  end.

(** [String(n)] for a natural number. *)
Definition N_to_string (n : N) : string :=
  string_of_list_ascii (rev (digitsN_rev (S (N.size_nat n)) n)).

(** The double nearest to the natural number [n] (ties to an even
    significand), that is the value of [n] as a Number; [None] when it
    rounds to Infinity (from 2^1024 - 2^970 on). *)
Definition round_double (n : N) : option N :=
  if N.ltb n (2 ^ 53) then Some n
  else
    let shift := (N.log2 n - 52)%N in
    let q := N.shiftr n shift in
    let r := (n - N.shiftl q shift)%N in
    let half := N.shiftl 1 (shift - 1) in
    let q' := if N.ltb half r || (N.eqb r half && N.odd q) then (q + 1)%N else q in
    let x := N.shiftl q' shift in
    if N.ltb x (2 ^ 1024) then Some x else None.

Fixpoint zeros (n : nat) : string :=
  match n with O => "" | S n' => String "0" (zeros n') end.

(** The [s], [k] and [n] of Number::toString for a positive integral
    double [x] of [D] decimal digits, searching [k] upwards from [k]: the
    fewest digits [s] (k of them) with [s * 10^(n-k)] rounding to [x],
    the one nearest to [x] and the even one on a tie. An integral [x]
    has [n >= k], so the candidates are [x / 10^(D-k)] and its
    successor; the successor [10^k] is written [10^(k-1)] with [n = D+1]. *)
Fixpoint shortest (x : N) (D k fuel : nat) : N * nat * nat :=
  match fuel with
  | O => (x, D, D)
  | S f =>
      let p := (10 ^ N.of_nat (D - k))%N in
      let s0 := (x / p)%N in
      let s1 := (s0 + 1)%N in
      let rounds_to s :=
        match round_double (s * p) with Some y => N.eqb y x | None => false end in
      let up := if N.eqb s1 (10 ^ N.of_nat k) then ((10 ^ N.of_nat (k - 1))%N, k, S D)
                else (s1, k, D) in
      let d0 := (x - s0 * p)%N in
      let d1 := (s1 * p - x)%N in
      match rounds_to s0, rounds_to s1 with
      | true, true => if N.ltb d0 d1 || (N.eqb d0 d1 && N.even s0) then (s0, k, D) else up
      | true, false => (s0, k, D)
      | false, true => up
      | false, false => shortest x D (S k) f
      end
  end.

(** Number::toString(10) of a positive integral double [x]: plain digits
    up to 21 of them, exponent form beyond. *)
Definition pos_number_to_string (x : N) : string :=
  let D := String.length (N_to_string x) in
  let '(s, k, n) := shortest x D 1 D in
  let ds := N_to_string s in
  if Nat.leb n 21 then ds ++ zeros (n - k)
  else
    match ds with
    | String d rest =>
        String d ((if String.eqb rest "" then "" else "." ++ rest) ++ "e+"
                  ++ N_to_string (N.of_nat (n - 1)))
    | EmptyString => EmptyString
    end.

(** [String(v)] *)
Fixpoint to_string (v : jsval) : string :=
  match v with
  | JUndefined => "undefined"
  | JNull => "null"
  | JBool b => if b then "true" else "false"
  | JNum n =>
      if Z.eqb n 0 then "0"
      else (if Z.ltb n 0 then "-" else "") ++
           match round_double (Z.abs_N n) with
           | Some x => pos_number_to_string x
           | None => "Infinity"
           end
  | JNaN => "NaN"
  | JInf neg => if neg then "-Infinity" else "Infinity"
  | JStr s => s
  | JArr xs =>
      Str.join "," (map (fun x => match x with
                                  | JUndefined | JNull => ""
                                  | _ => to_string x
                                  end) xs)
  | JObj _ | JProto _ => "[object Object]"
  | JBuiltin _ k => "function " ++ k ++ "() { [native code] }"
  end.

(** [v === "s"] *)
Definition is_str (v : jsval) (s : string) : bool :=
  match v with JStr s' => String.eqb s' s | _ => false end.

Definition is_digit (c : ascii) : bool :=
  let n := nat_of_ascii c in Nat.leb 48 n && Nat.leb n 57.

(** The one-byte StrWhiteSpaceChar code points: TAB, LF, VT, FF, CR
    and SPACE. *)
Definition is_space (c : ascii) : bool :=
  let n := nat_of_ascii c in (Nat.leb 9 n && Nat.leb n 13) || Nat.eqb n 32.

(** The UTF-8 form of U+00A0 (NO-BREAK SPACE). *)
Definition is_space2 (a b : ascii) : bool :=
  Nat.eqb (nat_of_ascii a) 194 && Nat.eqb (nat_of_ascii b) 160.

(** The UTF-8 forms of the three-byte StrWhiteSpaceChar code points:
    U+1680, U+2000 to U+200A, U+2028, U+2029, U+202F, U+205F, U+3000
    (the other Zs spaces and the two line terminators) and U+FEFF. *)
Definition is_space3 (a b c : ascii) : bool :=
  let a := nat_of_ascii a in
  let b := nat_of_ascii b in
  let c := nat_of_ascii c in
  (Nat.eqb a 225 && Nat.eqb b 154 && Nat.eqb c 128) ||
  (Nat.eqb a 226 && Nat.eqb b 128 &&
     ((Nat.leb 128 c && Nat.leb c 138) || Nat.eqb c 168 || Nat.eqb c 169 || Nat.eqb c 175)) ||
  (Nat.eqb a 226 && Nat.eqb b 129 && Nat.eqb c 159) ||
  (Nat.eqb a 227 && Nat.eqb b 128 && Nat.eqb c 128) ||
  (Nat.eqb a 239 && Nat.eqb b 187 && Nat.eqb c 191).

(** [TrimString(s, start)]: drops the leading white space and line
    terminators. *)
Fixpoint skip_spaces (s : string) : string :=
  match s with
  | String a s1 =>
      if is_space a then skip_spaces s1
      else
        match s1 with
        | String b s2 =>
            if is_space2 a b then skip_spaces s2
            else
              match s2 with
              | String c s3 => if is_space3 a b c then skip_spaces s3 else s
              | EmptyString => s
              end
        | EmptyString => s
        end
  | EmptyString => s
  end.

(** The longest prefix of decimal digits, with its value. *)
Fixpoint digit_prefix (s : string) (acc : N) (seen : bool) : option N :=
  match s with
  | String c s' =>
      if is_digit c then digit_prefix s' (acc * 10 + (N_of_ascii c - 48))%N true
      else if seen then Some acc else None
  | EmptyString => if seen then Some acc else None
  end.

(** An optional sign: [true] for "-". *)
Definition sign_split (s : string) : bool * string :=
  match s with
  | String "-" s' => (true, s')
  | String "+" s' => (false, s')
  | _ => (false, s)
  end.

(** The Number [sign * n]: [n] rounded to the nearest double, or
    Infinity with the sign. *)
Definition signed_number (neg : bool) (n : N) : jsval :=
  match round_double n with
  | Some x => JNum (if neg then Z.opp (Z.of_N x) else Z.of_N x)
  | None => JInf neg
  end.

(** [parseInt(String(v), 10)]: the mathematical value of the leading
    digits, rounded as a Number. *)
Definition parseInt10 (v : jsval) : jsval :=
  let '(neg, body) := sign_split (skip_spaces (to_string v)) in
  match digit_prefix body 0 false with
  | Some n => signed_number neg n
  | None => JNaN
  end.

(** [toInt(value)] *)
Definition toInt (v : jsval) : jsval :=
  match parseInt10 v with JNaN => JNum 0 | n => n end.

(** The key and value the reducer reads from one entry node:
    [cur._attributes?.["abapsource:key"]], [cur._text || cur["#text"]]. *)
Definition entry_key_value (cur : jsval) : result (jsval * jsval) :=
  attrs <-- get_strict cur "_attributes" ;;
  t <-- get_strict cur "_text" ;;
  h <-- get_strict cur "#text" ;;
  inr (opt_get attrs "abapsource:key", or t h).

(** [prev[key] = value] on a plain object. [__proto__] is never an own
    property: assigning a primitive to it does nothing, and the change of
    prototype an object value would make is not modelled. *)
Fixpoint obj_set (fs : list (string * jsval)) (k : string) (v : jsval) :=
  match fs with
  | [] => [(k, v)]
  | (k', v') :: fs' => if String.eqb k k' then (k, v) :: fs' else (k', v') :: obj_set fs' k v
  end.

Definition assign (fs : list (string * jsval)) (k : string) (v : jsval) :=
  if String.eqb k "__proto__" then fs else obj_set fs k v.

(** The [reduce] building [converted]. *)
Fixpoint reduce_entries (prev : list (string * jsval)) (entries : list jsval)
    : result (list (string * jsval)) :=
  match entries with
  | [] => inr prev
  | cur :: rest =>
      kv <-- entry_key_value cur ;;
      let '(key, value) := kv in
      reduce_entries (if truthy key then assign prev (to_string key) value else prev) rest
  end.

(** Array-index keys ("0", "1", ... below 2^32 - 1, canonical form). *)
Definition array_index (k : string) : option N :=
  match digit_prefix k 0 false with
  | Some n => if String.eqb (N_to_string n) k && N.ltb n 4294967295
              then Some n else None
  | None => None
  end.

Fixpoint insert_by_index {A} (kv : string * A) (n : N) (l : list (string * A)) :=
  match l with
  | [] => [kv]
  | kv' :: l' =>
      match array_index (fst kv') with
      | Some n' => if N.ltb n n' then kv :: l else kv' :: insert_by_index kv n l'
      | None => kv :: l
      end
  end.

(** Own-key order of an object: array-index keys ascending, then the
    other keys in insertion order. *)
Definition own_key_order {A} (fs : list (string * A)) : list (string * A) :=
  fold_right (fun kv acc =>
                match array_index (fst kv) with
                | Some n => insert_by_index kv n acc
                | None => acc
                end) [] fs ++
  filter (fun kv => match array_index (fst kv) with Some _ => false | None => true end) fs.

Definition ddic_keys : list string :=
  ["ddicIsKey"; "ddicDataElement"; "ddicDataType"; "ddicLength"; "ddicDecimals";
   "ddicHeading"; "ddicLabelShort"; "ddicLabelMedium"; "ddicLabelLong";
   "ddicHeadingLength"; "ddicLabelShortLength"; "ddicLabelMediumLength";
   "ddicLabelLongLength"; "parentName"].

(** [...rawanno]: the remaining own properties, in own-key order (which
    is also the order of [for (const key in rawanno)]). *)
Definition rawanno_of (converted : list (string * jsval)) : list (string * jsval) :=
  filter (fun kv => negb (mem (fst kv) ddic_keys)) (own_key_order converted).

Record ElementProps := mkElementProps {
  ddicIsKey : bool;
  ddicDataElement : jsval;
  ddicDataType : jsval;
  ddicLength : jsval;
  ddicDecimals : jsval;
  ddicHeading : jsval;
  ddicLabelShort : jsval;
  ddicLabelMedium : jsval;
  ddicLabelLong : jsval;
  ddicHeadingLength : jsval;
  ddicLabelShortLength : jsval;
  ddicLabelMediumLength : jsval;
  ddicLabelLongLength : jsval;
  parentName : jsval
}.

(** [elementProps] is the props object or the falsy guard value. *)
Inductive ElementPropsField :=
| EPObject (p : ElementProps)
| EPValue (v : jsval).

Record DdicAnnotation := mkAnnotation { key : jsval; value : jsval }.

(** Where [annotations[idx]] lives for the Number [idx]: an element when
    [idx] is an array index (an integer below 2^32 - 1), otherwise an
    ordinary property of the array named [String(idx)], identified here
    by the Number ([Some x]: the integral Number [x]; [None]: Infinity). *)
Inductive anno_slot :=
| Elem (i : nat)
| Named (x : option N).

(** The array [annotations]: its elements (holes are the slots never
    written) and its other properties in insertion order. *)
Record AnnotationArray := mkAnnotations {
  elems : list (option DdicAnnotation);
  named : list (option N * DdicAnnotation)
}.

Record DdicProperties := mkDdicProperties {
  elementProps : ElementPropsField;
  annotations : AnnotationArray
}.

(** [x ? parseInt(x, 10) : undefined] *)
Definition int_field (x : jsval) : jsval :=
  if truthy x then parseInt10 x else JUndefined.

Definition element_props (c : list (string * jsval)) : ElementPropsField :=
  let f k := get (JObj c) k in
  let guard := or (f "ddicDataType") (JBool (is_str (f "ddicDataType") "")) in
  if truthy guard then
    EPObject (mkElementProps
      (is_str (f "ddicIsKey") "true")
      (f "ddicDataElement") (f "ddicDataType")
      (int_field (f "ddicLength")) (int_field (f "ddicDecimals"))
      (f "ddicHeading") (f "ddicLabelShort") (f "ddicLabelMedium") (f "ddicLabelLong")
      (int_field (f "ddicHeadingLength")) (int_field (f "ddicLabelShortLength"))
      (int_field (f "ddicLabelMediumLength")) (int_field (f "ddicLabelLongLength"))
      (f "parentName"))
  else EPValue guard.

(** [/annotation(Key|Value)\.([0-9]+)/] anchored at the start of [s]:
    the alternative matched and the digits. *)
Definition match_here (s : string) : option (bool * string) :=
  let digits_after (p : string) :=
    if Str.startsWith p s then
      let rest := substring (String.length p) (String.length s) s in
      let fix take (r : string) : string :=
        match r with
        | String c r' => if is_digit c then String c (take r') else EmptyString
        | EmptyString => EmptyString
        end in
      let d := take rest in
      if String.eqb d "" then None else Some d
    else None in
  match digits_after "annotationKey." with
  | Some d => Some (true, d)
  | None => match digits_after "annotationValue." with
            | Some d => Some (false, d)
            | None => None
            end
  end.

(** [key.match(...)]: the leftmost match; [true] is the "Key" branch. *)
Fixpoint regex_match (s : string) : option (bool * string) :=
  match match_here s with
  | Some m => Some m
  | None => match s with
            | String _ s' => regex_match s'
            | EmptyString => None
            end
  end.

(** [annotations[idx]] as an array slot. *)
Definition slot (l : list (option DdicAnnotation)) (i : nat) : option DdicAnnotation :=
  match nth_error l i with Some (Some a) => Some a | _ => None end.

(** [annotations[idx] = anno]: writing past the end leaves holes. *)
Fixpoint set_slot (l : list (option DdicAnnotation)) (i : nat) (a : DdicAnnotation) :=
  match l, i with
  | _ :: l', O => Some a :: l'
  | [], O => [Some a]
  | x :: l', S i' => x :: set_slot l' i' a
  | [], S i' => None :: set_slot [] i' a
  end.

Definition opt_N_eqb (x y : option N) : bool :=
  match x, y with
  | Some a, Some b => N.eqb a b
  | None, None => true
  | _, _ => false
  end.

Definition anno_slot_eqb (a b : anno_slot) : bool :=
  match a, b with
  | Elem i, Elem j => Nat.eqb i j
  | Named x, Named y => opt_N_eqb x y
  | _, _ => false
  end.

Fixpoint named_lookup (l : list (option N * DdicAnnotation)) (x : option N)
    : option DdicAnnotation :=
  match l with
  | [] => None
  | (y, a) :: l' => if opt_N_eqb x y then Some a else named_lookup l' x
  end.

(** Setting a property: an existing one keeps its place, a new one goes
    last. *)
Fixpoint named_set (l : list (option N * DdicAnnotation)) (x : option N)
    (a : DdicAnnotation) : list (option N * DdicAnnotation) :=
  match l with
  | [] => [(x, a)]
  | (y, b) :: l' => if opt_N_eqb x y then (y, a) :: l' else (y, b) :: named_set l' x a
  end.

(** [annotations[idx]] *)
Definition read_slot (a : AnnotationArray) (sl : anno_slot) : option DdicAnnotation :=
  match sl with
  | Elem i => slot (elems a) i
  | Named x => named_lookup (named a) x
  end.

(** [annotations[idx] = anno] *)
Definition write_slot (a : AnnotationArray) (sl : anno_slot) (v : DdicAnnotation)
    : AnnotationArray :=
  match sl with
  | Elem i => mkAnnotations (set_slot (elems a) i v) (named a)
  | Named x => mkAnnotations (elems a) (named_set (named a) x v)
  end.

(** The slot [annotations[toInt(d)]] addresses for the digits [d];
    [toInt] of digits is an integral Number or Infinity. *)
Definition slot_of_digits (d : string) : anno_slot :=
  match toInt (JStr d) with
  | JNum n => if Z.ltb n 4294967295 then Elem (Z.to_nat n) else Named (Some (Z.to_N n))
  | _ => Named None
  end.

(** One turn of the annotation loop. *)
Definition annotation_step (annotations : AnnotationArray)
    (kv : string * jsval) : AnnotationArray :=
  match regex_match (fst kv) with
  | Some (is_key, d) =>
      let idx := slot_of_digits d in
      let anno := match read_slot annotations idx with
                  | Some a => a
                  | None => mkAnnotation (JStr "") (JStr "")
                  end in
      let anno' := if is_key then mkAnnotation (snd kv) (value anno)
                   else mkAnnotation (key anno) (snd kv) in
      write_slot annotations idx anno'
  | None => annotations
  end.

Definition annotations_of (rawanno : list (string * jsval)) : AnnotationArray :=
  fold_left annotation_step rawanno (mkAnnotations [] []).

(** The six numeric fields of [elementProps]. *)
Definition numeric_fields : list (string * (ElementProps -> jsval)) :=
  [("ddicLength", ddicLength); ("ddicDecimals", ddicDecimals);
   ("ddicHeadingLength", ddicHeadingLength);
   ("ddicLabelShortLength", ddicLabelShortLength);
   ("ddicLabelMediumLength", ddicLabelMediumLength);
   ("ddicLabelLongLength", ddicLabelLongLength)].

(** The branch and slot a key selects in the annotation loop. *)
Definition anno_index (k : string) : option (bool * anno_slot) :=
  match regex_match k with
  | Some (is_key, d) => Some (is_key, slot_of_digits d)
  | None => None
  end.

(** The last value among the entries of [l] selecting branch [is_key] at
    slot [N] ([acc] when there is none). *)
Fixpoint last_for (is_key : bool) (N : anno_slot) (l : list (string * jsval)) (acc : option jsval)
    : option jsval :=
  match l with
  | [] => acc
  | kv :: l' =>
      last_for is_key N l'
        (match anno_index (fst kv) with
         | Some (b, i) => if Bool.eqb b is_key && anno_slot_eqb i N then Some (snd kv) else acc
         | None => acc
         end)
  end.

(** A slot from a previous slot and the last key and value written to it. *)
Definition pair_from (base : option DdicAnnotation) (k v : option jsval)
    : option DdicAnnotation :=
  match k, v with
  | None, None => base
  | _, _ =>
      let b := match base with Some a => a | None => mkAnnotation (JStr "") (JStr "") end in
      Some (mkAnnotation (match k with Some x => x | None => key b end)
                         (match v with Some x => x | None => value b end))
  end.

(** Slot [N] of the annotations built from [l]: the last key and the last
    value found under slot [N], the missing one empty. *)
Definition pair_at (l : list (string * jsval)) (N : anno_slot) : option DdicAnnotation :=
  pair_from None (last_for true N l None) (last_for false N l None).

(** [parseDDICProps(raw)] *)
Definition parseDDICProps (raw : jsval) : result DdicProperties :=
  converted <-- reduce_entries [] (xmlArray raw ["abapsource:entry"]) ;;
  inr (mkDdicProperties (element_props converted)
                        (annotations_of (rawanno_of converted))).

(** The objects [parseDDICProps] builds, as values.  An array keeps only
    its elements here (holes as [undefined]): its other properties are
    not seen by [JSON.stringify], the one consumer of these values. *)
Definition element_props_value (e : ElementPropsField) : jsval :=
  match e with
  | EPObject p =>
      JObj [("ddicIsKey", JBool (ddicIsKey p)); ("ddicDataElement", ddicDataElement p);
            ("ddicDataType", ddicDataType p); ("ddicLength", ddicLength p);
            ("ddicDecimals", ddicDecimals p); ("ddicHeading", ddicHeading p);
            ("ddicLabelShort", ddicLabelShort p); ("ddicLabelMedium", ddicLabelMedium p);
            ("ddicLabelLong", ddicLabelLong p); ("ddicHeadingLength", ddicHeadingLength p);
            ("ddicLabelShortLength", ddicLabelShortLength p);
            ("ddicLabelMediumLength", ddicLabelMediumLength p);
            ("ddicLabelLongLength", ddicLabelLongLength p); ("parentName", parentName p)]
  | EPValue v => v
  end.

Definition annotations_value (a : AnnotationArray) : jsval :=
  JArr (map (fun o => match o with
                      | Some x => JObj [("key", key x); ("value", value x)]
                      | None => JUndefined
                      end) (elems a)).

Definition ddic_properties_value (p : DdicProperties) : jsval :=
  JObj [("elementProps", element_props_value (elementProps p));
        ("annotations", annotations_value (annotations p))].

(** The number of constructors in a value. *)
Fixpoint jsval_size (v : jsval) : nat :=
  match v with
  | JArr xs => S (fold_right (fun x acc => jsval_size x + acc) 0 xs)
  | JObj fs => S (fold_right (fun kv acc => jsval_size (snd kv) + acc) 0 fs)
  | _ => 1
  end.

(** [parseDdicElement(raw)], the element as the object
    [{ type, name, properties, children }].  The recursion follows the
    nesting of the document; [fuel] (the size of the document) bounds
    it, each child being a proper part of its parent. *)
Fixpoint parseDdicElement (fuel : nat) (raw : jsval) : result jsval :=
  match fuel with
  | O => inl "Maximum call stack size exceeded"
  | S f =>
      attrs <-- get_strict raw "_attributes" ;;
      let type := opt_get attrs "adtcore:type" in
      let name := opt_get attrs "adtcore:name" in
      properties <-- parseDDICProps (get raw "abapsource:properties") ;;
      children <-- map_r (parseDdicElement f) (xmlArray raw ["abapsource:elementInfo"]) ;;
      inr (JObj [("type", type); ("name", name);
                 ("properties", ddic_properties_value properties);
                 ("children", JArr children)])
  end.

End Ddic.

(* ------------------------------------------------------------------ *)
(** ** Base URL of the configured system (utils.ts: [getBaseUrl]) *)

Module Url.
Import Config Session.

(** A URL record as the WHATWG URL parser returns it: the scheme
    (lowercase), the serialised host (lowercase, IDNA to ASCII, IPv4 in
    dotted form, IPv6 in brackets; [None] for a URL without a host), the
    port ([None] when absent or the scheme's default), the serialised
    path, the query and the fragment. *)
Record URLRecord := mkURL {
  u_scheme : string;
  u_host : option string;
  u_port : option N;
  u_path : string;
  u_query : option string;
  u_fragment : option string
}.

(** The Node runtime: whether it is Node 18 or later, and its WHATWG
    URL parser (the basic URL parser with no base; [None] is failure). *)
Record runtime := mkRuntime {
  node18_or_later : bool;
  parse_url : string -> option URLRecord
}.

(** The message of the [TypeError] that [new URL] throws: from Node 18
    on it is "Invalid URL" (the input is only attached as a property);
    before, the input followed the text. *)
Definition invalid_url_message (rt : runtime) (input : string) : string :=
  if node18_or_later rt then "Invalid URL" else "Invalid URL: " ++ input.

(** [new URL(input)] *)
Definition URL (rt : runtime) (input : string) : string + URLRecord :=
  match parse_url rt input with
  | Some u => inr u
  | None => inl (invalid_url_message rt input)
  end.

Definition code (c : ascii) := nat_of_ascii c.

Definition is_alpha (c : ascii) : bool :=
  (Nat.leb 65 (code c) && Nat.leb (code c) 90) || (Nat.leb 97 (code c) && Nat.leb (code c) 122).

Definition is_special (sch : string) : bool :=
  existsb (String.eqb sch) ["ftp"; "file"; "http"; "https"; "ws"; "wss"].

(** The serialisation of a tuple origin (scheme, host, port). *)
Definition tuple_origin (u : URLRecord) : string :=
  match u_host u with
  | Some h =>
      u_scheme u ++ "://" ++ h ++
      match u_port u with Some n => ":" ++ Ddic.N_to_string n | None => "" end
  | None => "null"
  end.

(** [urlObj.origin]: a blob URL has the origin of the URL its path
    parses to when that one is http or https; the special schemes other
    than "file" have a tuple origin; every other URL has an opaque
    origin, serialised "null". *)
Definition origin (rt : runtime) (u : URLRecord) : string :=
  if String.eqb (u_scheme u) "blob" then
    match parse_url rt (u_path u) with
    | Some p =>
        if String.eqb (u_scheme p) "http" || String.eqb (u_scheme p) "https"
        then tuple_origin p else "null"
    | None => "null"
    end
  else if is_special (u_scheme u) && negb (String.eqb (u_scheme u) "file")
  then tuple_origin u
  else "null".

(** [getBaseUrl()]: the UTF-8 bytes of the origin ([Buffer.from]), read
    as a string. *)
Definition getBaseUrl (rt : runtime) : M string :=
  s <- get ;;
  c <- (match config s with
        | Some c => ret c
        | None =>
            match getConfig (env s) with
            | inr c => _ <- modify (fun s => set_config s (Some c)) ;; ret c
            | inl m => throw (Error m)
            end
        end) ;;
  match URL rt (url c) with
  | inr u => ret (origin rt u)
  | inl m => throw (Error ("Invalid URL in configuration: " ++ m))
  end.

End Url.

(* ------------------------------------------------------------------ *)
(** ** Concrete parsed documents *)

Module TreeSamples.
Import JS.

(** [<TAG>text</TAG>] in xml-js compact form. *)
Definition txt (s : string) : jsval := JObj [("_text", JStr s)].

(** A [SEU_ADT_REPOSITORY_OBJ_NODE] entry with the given fields. *)
Definition pkg_node (fields : list (string * string)) : jsval :=
  JObj (map (fun kv => (fst kv, txt (snd kv))) fields).

(** A package-tree document holding [nodes] as repeated entries. *)
Definition package_tree (nodes : list jsval) : jsval :=
  JObj [("asx:abap",
    JObj [("asx:values",
      JObj [("DATA",
        JObj [("TREE_CONTENT",
          JObj [("SEU_ADT_REPOSITORY_OBJ_NODE", JArr nodes)])])])])].

Definition class_node : jsval :=
  pkg_node [("OBJECT_TYPE", "CLAS/OC"); ("OBJECT_NAME", "ZCL_ORDER");
            ("DESCRIPTION", "Orders"); ("OBJECT_URI", "/sap/bc/adt/oo/classes/zcl_order")].

Definition table_node : jsval :=
  pkg_node [("OBJECT_TYPE", "TABL/DT"); ("OBJECT_NAME", "ZORDERS");
            ("OBJECT_URI", "/sap/bc/adt/ddic/tables/zorders")].

Definition nameless_node : jsval :=
  pkg_node [("OBJECT_TYPE", "DEVC/K"); ("DESCRIPTION", "Subpackage");
            ("OBJECT_URI", "/sap/bc/adt/packages/zsub")].



(** Three entries, one of which lacks a name. *)
Definition three_node_tree : jsval :=
  package_tree [class_node; nameless_node; table_node].

(** [<abapsource:entry abapsource:key="k">v</abapsource:entry>] *)
Definition entry (k v : string) : jsval :=
  JObj [("_attributes", JObj [("abapsource:key", JStr k)]); ("_text", JStr v)].

(** An [abapsource:properties] node with repeated entries. *)
Definition properties (entries : list jsval) : jsval :=
  JObj [("abapsource:entry", JArr entries)].

(** Parsers and transformers for [return_response]. *)
Definition failing_parse (v : jsval) : string + jsval :=
  inl "Unexpected close tag".
Definition echo (v : jsval) : string + jsval := inr v.
Definition wrap (v : jsval) : string + jsval := inr (JObj [("parsed", v)]).

(** The four annotation entries of the specification's example. *)
Definition anno_A : jsval := entry "annotationKey.0" "A".
Definition anno_B : jsval := entry "annotationValue.1" "B".
Definition anno_C : jsval := entry "annotationValue.0" "C".
Definition anno_D : jsval := entry "annotationKey.1" "D".

End TreeSamples.

(* ------------------------------------------------------------------ *)
(** ** Concrete sessions and backend replies *)

Module UrlSamples.
Import Config Session Url.

(** The WHATWG records of the URLs used below; the other inputs do not
    parse. *)
Definition sample_parse (input : string) : option URLRecord :=
  if String.eqb input "https://sap.example.com:44300" then
    Some (mkURL "https" (Some "sap.example.com") (Some 44300%N) "/" None None)
  else if String.eqb input "https://SAP.example.com:44300/sap/bc/adt?sap-client=100#top" then
    Some (mkURL "https" (Some "sap.example.com") (Some 44300%N) "/sap/bc/adt"
                (Some "sap-client=100") (Some "top"))
  else if String.eqb input "https://b.example.com" then
    Some (mkURL "https" (Some "b.example.com") None "/" None None)
  else if String.eqb input "http://[::1]:80/x" then
    Some (mkURL "http" (Some "[::1]") None "/x" None None)
  else if String.eqb input "sap://sap.example.com:8000/sap/bc/adt" then
    Some (mkURL "sap" (Some "sap.example.com") (Some 8000%N) "/sap/bc/adt" None None)
  else if String.eqb input "blob:https://sap.example.com:44300/0b9e" then
    Some (mkURL "blob" None None "https://sap.example.com:44300/0b9e" None None)
  else if String.eqb input "https://sap.example.com:44300/0b9e" then
    Some (mkURL "https" (Some "sap.example.com") (Some 44300%N) "/0b9e" None None)
  else None.

Definition node18 : runtime := mkRuntime true sample_parse.

(** A session whose configuration holds the base URL [u]. *)
Definition session_with (u : string) : Session :=
  mkSession (mkEnv (Some u) (Some "DEVELOPER") (Some "secret") (Some "100") None)
            false (Some (mkConfig u "DEVELOPER" "secret" "100")) None None [] [].

End UrlSamples.

Module SessionSamples.
Import Config JS Session.

Definition env0 : Env :=
  mkEnv (Some "https://sap.example.com:44300") (Some "DEVELOPER") (Some "secret")
        (Some "100") None.

Definition cfg0 : SapConfig :=
  mkConfig "https://sap.example.com:44300" "DEVELOPER" "secret" "100".

Definition url0 : string :=
  "https://sap.example.com:44300/sap/bc/adt/repository/nodestructure".

Definition rejected403 : outcome :=
  Fail "Request failed with status code 403"
       (Some (mkResponse 403 None None (JStr "CSRF token validation failed"))).

(** The same refusal with a JSON body, which axios hands over parsed. *)
Definition rejected403_json : outcome :=
  Fail "Request failed with status code 403"
       (Some (mkResponse 403 None None
                (JObj [("message", JStr "CSRF token validation failed")]))).

Definition token_reply : outcome :=
  Ok (mkResponse 200 (Some "T1")
        (Some ["sap-usercontext=sap-client=100"; "SAP_SESSIONID=abc"]) (JStr "")).

Definition ok_reply : response := mkResponse 200 None None (JStr "<ok/>").

(** A POST session holding the token "T0", whose first attempt is refused. *)
Definition s_retry : Session :=
  mkSession env0 false None (Some "T0") None
            [rejected403; token_reply; Ok ok_reply] [].

(** The same session, refused with a JSON body. *)
Definition s_retry_json : Session :=
  mkSession env0 false None (Some "T0") None
            [rejected403_json; token_reply; Ok ok_reply] [].

(** A fresh POST session: no token, no configuration loaded yet. *)
Definition s_fresh : Session :=
  mkSession env0 false None None None [token_reply; Ok ok_reply] [].

End SessionSamples.

(* ------------------------------------------------------------------ *)
(** ** Percent-encoding and query strings ([encodeURIComponent],
    [URLSearchParams], utils.ts: [formatQS]) *)

Module Enc.
Import JS.

Definition hex_digit (n : nat) : ascii :=
  match String.get n "0123456789ABCDEF" with Some c => c | None => "0"%char end.

(** [%XX] for one byte, in upper-case hex. *)
Definition percent (c : ascii) : string :=
  String "%" (String (hex_digit (nat_of_ascii c / 16))
                     (String (hex_digit (nat_of_ascii c mod 16)) EmptyString)).

Definition is_alnum (c : ascii) : bool := Url.is_alpha c || Ddic.is_digit c.

(** The characters [encodeURIComponent] leaves as they are. *)
Definition uri_unreserved (c : ascii) : bool :=
  is_alnum c || existsb (Ascii.eqb c) (list_ascii_of_string "-_.!~*'()").

(** [encodeURIComponent(s)] over the UTF-8 bytes of [s]: each byte of a
    character outside the unreserved set becomes [%XX]. (The [URIError]
    of a lone surrogate has no counterpart: such a string has no UTF-8
    form.) *)
Fixpoint encodeURIComponent (s : string) : string :=
  match s with
  | EmptyString => EmptyString
  | String c s' =>
      (if uri_unreserved c then String c EmptyString else percent c)
      ++ encodeURIComponent s'
  end.

(** The bytes the application/x-www-form-urlencoded serializer of
    [URLSearchParams] leaves as they are. *)
Definition form_unreserved (c : ascii) : bool :=
  is_alnum c || existsb (Ascii.eqb c) (list_ascii_of_string "*-._").

(** The form-urlencoded byte serializer: a space becomes "+". *)
Fixpoint form_encode (s : string) : string :=
  match s with
  | EmptyString => EmptyString
  | String c s' =>
      (if form_unreserved c then String c EmptyString
       else if Ascii.eqb c " " then "+" else percent c)
      ++ form_encode s'
  end.

(** [searchParams.toString()] for the appended name-value pairs. *)
Definition form_serialize (l : list (string * string)) : string :=
  Str.join "&" (map (fun kv => form_encode (fst kv) ++ "=" ++ form_encode (snd kv)) l).

(** The pairs [formatQS] appends for one entry [[key, value]]. *)
Definition qs_pairs (kv : string * jsval) : list (string * string) :=
  let '(key, value) := kv in
  match value with
  | JArr xs => map (fun v => (key, Ddic.to_string v)) xs
  | JUndefined | JNull => []
  | _ => [(key, Ddic.to_string value)]
  end.

(** [formatQS(params)] for a plain object [params]: [Object.entries]
    lists its own properties in own-key order. *)
Definition formatQS (params : list (string * jsval)) : string :=
  form_serialize (flat_map qs_pairs (Ddic.own_key_order params)).

End Enc.

(* ------------------------------------------------------------------ *)
(** ** [JSON.stringify(value, null, 2)] *)

Module Json.
Import JS.

Definition nl : string := String (ascii_of_nat 10) "".
Definition dq : string := String (ascii_of_nat 34) "".

Definition hex_lower (n : nat) : ascii :=
  match String.get n "0123456789abcdef" with Some c => c | None => "0"%char end.

(** QuoteJSONString on a UTF-8 byte string: the short escapes, [\u00xx]
    for the other control characters, every other byte as it is. *)
Fixpoint quote_chars (s : string) : string :=
  match s with
  | EmptyString => ""
  | String c s' =>
      let n := nat_of_ascii c in
      (if Nat.eqb n 34 then "\" ++ dq
       else if Nat.eqb n 92 then "\\"
       else if Nat.eqb n 8 then "\b"
       else if Nat.eqb n 9 then "\t"
       else if Nat.eqb n 10 then "\n"
       else if Nat.eqb n 12 then "\f"
       else if Nat.eqb n 13 then "\r"
       else if Nat.ltb n 32 then "\u00" ++ String (hex_lower (n / 16)) (String (hex_lower (n mod 16)) "")
       else String c "") ++ quote_chars s'
  end.

Definition quote (s : string) : string := dq ++ quote_chars s ++ dq.

(** The layout of a non-empty array or object with the gap of two
    spaces: one member per line, indented one level deeper. *)
Definition wrap (op cl indent : string) (items : list string) : string :=
  match items with
  | [] => op ++ cl
  | _ => op ++ nl ++ indent ++ "  " ++ Str.join ("," ++ nl ++ indent ++ "  ") items
         ++ nl ++ indent ++ cl
  end.

(** SerializeJSONProperty at the indentation [indent]: [None] is
    [undefined] (an undefined value or a function). *)
Fixpoint serialize (indent : string) (v : jsval) : option string :=
  match v with
  | JUndefined | JBuiltin _ _ => None
  | JNull | JNaN | JInf _ => Some "null"
  | JBool b => Some (if b then "true" else "false")
  | JNum _ => Some (Ddic.to_string v)
  | JStr s => Some (quote s)
  | JProto _ => Some "{}"
  | JArr xs =>
      let fix items (xs : list jsval) : list string :=
        match xs with
        | [] => []
        | x :: xs' =>
            match serialize (indent ++ "  ") x with Some t => t | None => "null" end
            :: items xs'
        end in
      Some (wrap "[" "]" indent (items xs))
  | JObj fs =>
      let fix members (fs : list (string * jsval)) : list (string * string) :=
        match fs with
        | [] => []
        | (k, x) :: fs' =>
            match serialize (indent ++ "  ") x with
            | Some t => (k, t) :: members fs'
            | None => members fs'
            end
        end in
      Some (wrap "{" "}" indent
              (map (fun kt => quote (fst kt) ++ ": " ++ snd kt)
                   (Ddic.own_key_order (members fs))))
  end.

(** [JSON.stringify(v, null, 2)]: a string, or [undefined]; the values
    here have no cycles and no BigInt, so it does not throw. *)
Definition stringify (v : jsval) : string + jsval :=
  match serialize "" v with
  | Some t => inr (JStr t)
  | None => inr JUndefined
  end.

End Json.

(* ------------------------------------------------------------------ *)
(** ** Tool handlers (utils.ts: [return_error], [transformSearchResults];
    handleSearchObject.ts, handleGetTableContents.ts; the query of
    handleCdsOperations.ts: [handleGetCdsView]) *)

Module Handlers.
Import Config Session Url Package Xml JS Dispatch Enc.

(** What a handler's [catch] receives: an error of the request layer, or
    the [McpError] the handler throws for a missing argument. *)
Inductive thrown :=
| Thrown (e : error)
| McpErr (code : Z) (message : string).

(** [ErrorCode.InvalidParams] *)
Definition InvalidParams : Z := -32602.

(** The message the SDK's [McpError] constructor builds. *)
Definition mcp_message (code : Z) (message : string) : string :=
  "MCP error " ++ Ddic.to_string (JNum code) ++ ": " ++ message.

(** [String(error.response?.data)] *)
Definition response_data_string (r : option response) : string :=
  match r with
  | Some r => Ddic.to_string (data r)
  | None => "undefined"
  end.

(** [return_error(error)]: every thrown value here is an [Error]. *)
Definition return_error (e : thrown) : envelope :=
  mkEnvelope true "text"
    (JStr ("Error: " ++
           match e with
           | Thrown (AxiosError _ r) => response_data_string r
           | Thrown (Error m) | Thrown (TypeError m) => m
           | McpErr code m => mcp_message code m
           end)).

Definition error_name (e : thrown) : string :=
  match e with
  | Thrown (AxiosError _ _) => "AxiosError"
  | Thrown (Error _) => "Error"
  | Thrown (TypeError _) => "TypeError"
  | McpErr _ _ => "McpError"
  end.

Definition thrown_message (e : thrown) : string :=
  match e with
  | Thrown e => error_message e
  | McpErr code m => mcp_message code m
  end.

(** [`${error}`], that is [Error.prototype.toString]. *)
Definition error_string (e : thrown) : string :=
  if String.eqb (thrown_message e) "" then error_name e
  else error_name e ++ ": " ++ thrown_message e.

(** The error envelope of [handleGetTableContents]. *)
Definition table_service_error (e : thrown) : envelope :=
  return_error (Thrown (Error
    ("GetTableContents requires custom SAP service '/z_mcp_abap_adt/z_tablecontent/'. Original error: "
     ++ error_string e))).

(** [transformSearchResults(parsed)] *)
Definition transformSearchResults (parsed : jsval) : result jsval :=
  r <-- get_strict parsed "adtcore:objectReferences" ;;
  let searchResult := or r parsed in
  let objects := xmlArray searchResult ["adtcore:objectReference"] in
  results <-- map_r (fun obj =>
      a <-- get_strict obj "_attributes" ;;
      let attrs := or a (JObj []) in
      inr (JObj [("name", or (get attrs "adtcore:name") (JStr ""));
                 ("type", or (get attrs "adtcore:type") (JStr ""));
                 ("uri", or (get attrs "adtcore:uri") (JStr ""));
                 ("description", or (get attrs "adtcore:description") (JStr ""));
                 ("packageName", or (get attrs "adtcore:packageName") (JStr ""))]))
    objects ;;
  inr (JObj [("type", JStr "search_results");
             ("totalCount", JNum (Z.of_nat (length objects)));
             ("results", JArr results)]).

(** [response.data] *)
Definition body (r : response) : jsval := data r.

(** A change of [process.env] between two calls. *)
Definition set_env (s : Session) (e : Env) : Session :=
  mkSession e (axiosInstance s) (config s) (csrfToken s) (cookies s) (net s) (sent s).

(** [const { path, flag = dflt, ... } = args]: a default replaces
    [undefined] only. *)
Definition with_default (v dflt : jsval) : jsval :=
  match v with JUndefined => dflt | _ => v end.

(** The query string [handleGetCdsView] builds (lines 145-157). *)
Definition cds_query (args : jsval) : string :=
  formatQS [("getTargetForAssociation",
               with_default (get args "getTargetForAssociation") (JBool false));
            ("getExtensionViews", with_default (get args "getExtensionViews") (JBool true));
            ("getSecondaryObjects", with_default (get args "getSecondaryObjects") (JBool true));
            ("path", get args "path")].

Section Tools.

(** The Node runtime, and the two libraries [return_response] calls. *)
Variable rt : runtime.
Variable fullParse : jsval -> string + jsval.
Variable stringify : jsval -> string + jsval.

(** [return_response(response, transformer)], reading [RETURN_RAW_XML]
    from [process.env] at the time of the call. *)
Definition respond (r : response) (t : option (jsval -> string + jsval)) : M envelope :=
  s <- Session.get ;;
  ret (return_response fullParse stringify (RETURN_RAW_XML (env s)) (body r) t).

(** [handleSearchObject(args)] *)
Definition handleSearchObject (args : jsval) : M envelope :=
  if negb (truthy (opt_get args "query")) then
    ret (return_error (McpErr InvalidParams "Search query is required"))
  else
    try_catch
      (let maxResults := or (get args "maxResults") (JNum 100) in
       let encodedQuery := encodeURIComponent (Ddic.to_string (get args "query")) in
       base <- getBaseUrl rt ;;
       let url := base ++ "/sap/bc/adt/repository/informationsystem/search?operation=quickSearch&query="
                  ++ encodedQuery ++ "&maxResults=" ++ Ddic.to_string maxResults in
       response <- makeAdtRequest url "GET" 30000 None None ;;
       respond response (Some transformSearchResults))
      (fun error => ret (return_error (Thrown error))).

(** [handleGetPackage(args)]; axios serialises the params object with
    [String] of each value. *)
Definition handleGetPackage (args : jsval) : M envelope :=
  if negb (truthy (opt_get args "package_name")) then
    ret (return_error (McpErr InvalidParams "Package name is required"))
  else
    try_catch
      (base <- getBaseUrl rt ;;
       let nodeContentsUrl := base ++ "/sap/bc/adt/repository/nodestructure" in
       let encodedPackageName := encodeURIComponent (Ddic.to_string (get args "package_name")) in
       let nodeContentsParams := [("parent_type", "DEVC/K");
                                  ("parent_name", encodedPackageName);
                                  ("withShortDescriptions", "true")] in
       package_structure_response <-
         makeAdtRequest nodeContentsUrl "POST" 30000 None (Some nodeContentsParams) ;;
       respond package_structure_response (Some transformPackageInfo))
      (fun error => ret (return_error (Thrown error))).

(** [handleGetTableContents(args)] *)
Definition handleGetTableContents (args : jsval) : M envelope :=
  if negb (truthy (opt_get args "table_name")) then
    ret (table_service_error (McpErr InvalidParams "Table name is required"))
  else
    try_catch
      (let maxRows := or (get args "max_rows") (JNum 100) in
       let encodedTableName := encodeURIComponent (Ddic.to_string (get args "table_name")) in
       base <- getBaseUrl rt ;;
       let url := base ++ "/z_mcp_abap_adt/z_tablecontent/" ++ encodedTableName
                  ++ "?maxRows=" ++ Ddic.to_string maxRows in
       response <- makeAdtRequest url "GET" 30000 None None ;;
       respond response None)
      (fun error => ret (table_service_error (Thrown error))).

(** [handleGetCdsView(args)]: the element goes to [JSON.stringify(element,
    null, 2)] directly; neither [return_response] nor [RETURN_RAW_XML] is
    involved.  The [McpError] for a missing path is thrown inside the
    [try] and reaches [return_error] there. *)
Definition handleGetCdsView (args : jsval) : M envelope :=
  if negb (truthy (opt_get args "path")) then
    ret (return_error (McpErr InvalidParams "Path is required"))
  else
    try_catch
      (let qs := cds_query args in
       base <- getBaseUrl rt ;;
       response <- makeAdtRequest (base ++ "/sap/bc/adt/ddic/ddl/elementinfo?" ++ qs)
                                  "GET" 30000 None None ;;
       match fullParse (body response) with
       | inl m => throw (Error m)
       | inr raw =>
           match (r <-- get_strict raw "abapsource:elementInfo" ;;
                  Ddic.parseDdicElement (S (Ddic.jsval_size r)) r) with
           | inl m => throw (TypeError m)
           | inr element =>
               match stringify element with
               | inl m => throw (TypeError m)
               | inr t => ret (mkEnvelope false "text" t)
               end
           end
       end)
      (fun error => ret (return_error (Thrown error))).

End Tools.

End Handlers.


Module HandlerSamples.
Import Config Session JS.

(** A session configured for https://sap.example.com:44300, and that URL
    as [new URL] parses it. *)
Definition s_sap : Session := UrlSamples.session_with "https://sap.example.com:44300".

Definition cfg_sap : SapConfig :=
  mkConfig "https://sap.example.com:44300" "DEVELOPER" "secret" "100".

Definition url_sap : Url.URLRecord :=
  Url.mkURL "https" (Some "sap.example.com") (Some 44300%N) "/" None None.

(** A parser and a serialiser that never throw. *)
Definition id_lib (d : jsval) : string + jsval := inr d.

Definition search_args : jsval := JObj [("query", JStr "ZCL_*"); ("maxResults", JNum 10)].

Definition package_args : jsval := JObj [("package_name", JStr "$TMP")].

(** A second environment, pointing at another system. *)
Definition env_b : Env :=
  mkEnv (Some "https://b.example.com") (Some "DEVELOPER") (Some "secret") (Some "100") None.

(** A session whose configuration has not been loaded yet. *)
Definition s_unloaded : Session :=
  mkSession SessionSamples.env0 false None None None [] [].

(** A session with no SAP variables in the environment. *)
Definition s_empty : Session :=
  mkSession (mkEnv None None None None None) false None None None [] [].

Definition table_args : jsval := JObj [("table_name", JStr "T000"); ("max_rows", JNum 5)].

(** A quick-search answer as xml-js parses it: one object reference with a
    name and no description. *)
Definition search_tree : jsval :=
  JObj [("adtcore:objectReferences",
         JObj [("adtcore:objectReference",
                JObj [("_attributes",
                       JObj [("adtcore:name", JStr "ZCL_DEMO");
                             ("adtcore:type", JStr "CLAS/OC")])])])].

(** A CDS element-info answer with no properties and no children, and the
    tree xml-js builds from it. *)
Definition cds_xml : string :=
  "<abapsource:elementInfo adtcore:type='DDLS/DF' adtcore:name='ZI_SALES'/>".

Definition cds_tree : jsval :=
  JObj [("abapsource:elementInfo",
         JObj [("_attributes",
                JObj [("adtcore:type", JStr "DDLS/DF");
                      ("adtcore:name", JStr "ZI_SALES")])])].

(** [fullParse] on this answer. *)
Definition cds_parse (d : jsval) : string + jsval :=
  match d with
  | JStr x => if String.eqb x cds_xml then inr cds_tree else inl "Unexpected input"
  | _ => inl "Unexpected input"
  end.

Definition cds_args : jsval := JObj [("path", JStr "ZI_SALES")].

(** A session in raw mode ([RETURN_RAW_XML=true]) whose next request
    returns [cds_xml]. *)
Definition s_cds_raw : Session :=
  mkSession (mkEnv (Some "https://sap.example.com:44300") (Some "DEVELOPER")
                   (Some "secret") (Some "100") (Some "true"))
            false (Some cfg_sap) None None
            [Ok (mkResponse 200 None None (JStr cds_xml))] [].

End HandlerSamples.

(* ================================================================== *)
(** * Properties *)

Example base64_user_pass : Str.base64 "user:pass" = "dXNlcjpwYXNz".
Proof. reflexivity. Qed.

Module SessionProofs.
Import Config Session SessionFacts.

Lemma http_run rq s :
  http rq s = (outcome_result (next_outcome (net s)),
               set_net (set_axios s true) (tl (net s)) (sent s ++ [rq])%list).
Proof. destruct s; reflexivity. Qed.

Lemma http_step rq s o rest :
  net s = o :: rest ->
  http rq s = (outcome_result o, set_net (set_axios s true) rest (sent s ++ [rq])%list).
Proof. intros Hn; rewrite http_run, Hn; reflexivity. Qed.

Lemma getAuthHeaders_step s c :
  config_of s = Some c ->
  getAuthHeaders s = (inr (auth_headers c), set_config s (Some c)).
Proof.
  destruct s as [e ax [c0|] tok ck n l]; unfold config_of; simpl.
  - intros [= <-]; reflexivity.
  - destruct (getConfig e) eqn:Hg; [discriminate|].
    intros [= <-]. unfold getAuthHeaders, bind, get, modify, ret; simpl.
    rewrite Hg; reflexivity.
Qed.

Lemma fetchCsrfToken_run url s c :
  config_of s = Some c ->
  let o := next_outcome (net s) in
  let rest := tl (net s) in
  fetchCsrfToken url s =
    let s1 := set_net (set_axios (set_config s (Some c)) true) rest
                      (sent s ++ [bootstrap_request url c])%list in
    match exchange_token o with
    | Some t => (inr t, set_cookies s1 (cookies_after o (cookies s)))
    | None => (inl (Error (fetch_failure o)), s1)
    end.
Proof.
  intros Hc o rest.
  unfold fetchCsrfToken, try_catch, bind at 1, createAxiosInstance, modify.
  unfold bind at 1.
  rewrite (getAuthHeaders_step (set_axios s true) c) by (destruct s; exact Hc).
  unfold bind at 1.
  rewrite http_run.
  destruct s as [e ax cf tok ck n l]; subst o rest; simpl in *.
  destruct (next_outcome n) as [[st tk sc dt]|m [[st tk sc dt]|]];
    unfold exchange_token, cookies_after, outcome_response; simpl;
    repeat match goal with
           | |- context [Str.truthy ?x] => destruct (Str.truthy x)
           | |- context [match ?sc with Some _ => _ | None => _ end] =>
               destruct sc
           end; reflexivity.
Qed.

Lemma fetchCsrfToken_step url s c o rest :
  config_of s = Some c -> net s = o :: rest ->
  fetchCsrfToken url s =
    let s1 := set_net (set_axios (set_config s (Some c)) true) rest
                      (sent s ++ [bootstrap_request url c])%list in
    match exchange_token o with
    | Some t => (inr t, set_cookies s1 (cookies_after o (cookies s)))
    | None => (inl (Error (fetch_failure o)), s1)
    end.
Proof.
  intros Hc Hn; rewrite (fetchCsrfToken_run url s c Hc), Hn; reflexivity.
Qed.

Lemma header_set_same h k v : header (set_header h k v) k = Some v.
Proof.
  induction h as [|[k' v'] h IH]; simpl.
  - rewrite String.eqb_refl; reflexivity.
  - destruct (String.eqb k k') eqn:E; simpl.
    + rewrite String.eqb_refl; reflexivity.
    + rewrite E; exact IH.
Qed.

Lemma header_set_other h k v k2 :
  k2 <> k -> header (set_header h k v) k2 = header h k2.
Proof.
  intros Hne; induction h as [|[k' v'] h IH]; simpl.
  - apply String.eqb_neq in Hne; rewrite Hne; reflexivity.
  - destruct (String.eqb k k') eqn:E; simpl.
    + apply String.eqb_eq in E; subst k'.
      apply String.eqb_neq in Hne; rewrite Hne; reflexivity.
    + destruct (String.eqb k2 k'); [reflexivity | exact IH].
Qed.

Lemma header_auth_csrf c : header (auth_headers c) "x-csrf-token" = None.
Proof. reflexivity. Qed.

Lemma header_auth_cookie c : header (auth_headers c) "Cookie" = None.
Proof. reflexivity. Qed.

Lemma config_of_set s c : config_of (set_config s (Some c)) = Some c.
Proof. destruct s; reflexivity. Qed.

Lemma buildRequestConfig_step url m t d p s c :
  config_of s = Some c ->
  exists rq,
    buildRequestConfig url m t d p s = (inr rq, set_config s (Some c)) /\
    rq_method rq = m /\ rq_url rq = url /\
    header (rq_headers rq) "x-csrf-token" =
      (if is_post_or_put m then Str.truthy (csrfToken s) else None) /\
    header (rq_headers rq) "Cookie" = Str.truthy (cookies s).
Proof.
  intros Hc.
  unfold buildRequestConfig, bind at 1.
  rewrite (getAuthHeaders_step s c Hc).
  unfold bind, get, ret.
  eexists; split; [destruct s; reflexivity|].
  destruct s as [e ax cf tok ck n l]; simpl.
  split; [reflexivity|]; split; [reflexivity|].
  destruct (Str.truthy tok) as [tk|]; destruct (is_post_or_put m);
    destruct (Str.truthy ck) as [co|]; simpl;
    repeat first
      [ rewrite header_set_same
      | rewrite header_set_other by discriminate
      | rewrite header_auth_csrf
      | rewrite header_auth_cookie ];
    split; reflexivity.
Qed.

Lemma config_of_http_state s n l :
  config_of (set_net (set_axios s true) n l) = config_of s.
Proof. destruct s; reflexivity. Qed.

Lemma csrf_rejected_inl r e :
  csrf_rejected r = inl e -> e = TypeError includes_not_function.
Proof.
  unfold csrf_rejected; destruct (Z.eqb (status r) 403); [|discriminate].
  destruct (data_includes_csrf (data r)); [discriminate|]; congruence.
Qed.

Lemma sendWithCsrfRetry_step url rq s c o1 o2 o3 rest :
  config_of s = Some c -> net s = o1 :: o2 :: o3 :: rest ->
  let (res, s') := sendWithCsrfRetry url rq s in
  if is_csrf_rejection o1 then
    match exchange_token o2 with
    | Some tok =>
        res = outcome_result o3 /\ csrfToken s' = Some tok /\
        sent s' = (sent s ++ [rq; bootstrap_request url c; with_token rq tok])%list /\
        net s' = rest
    | None =>
        res = inl (Error (fetch_failure o2)) /\ csrfToken s' = csrfToken s /\
        sent s' = (sent s ++ [rq; bootstrap_request url c])%list /\
        net s' = o3 :: rest
    end
  else if csrf_check_throws o1 then
    res = inl (TypeError includes_not_function) /\ csrfToken s' = csrfToken s /\
    sent s' = (sent s ++ [rq])%list /\ net s' = o2 :: o3 :: rest
  else
    res = outcome_result o1 /\ csrfToken s' = csrfToken s /\
    sent s' = (sent s ++ [rq])%list /\ net s' = o2 :: o3 :: rest.
Proof.
  intros Hc Hn.
  unfold sendWithCsrfRetry, try_catch.
  rewrite (http_step rq s o1 (o2 :: o3 :: rest) Hn).
  set (s1 := set_net (set_axios s true) (o2 :: o3 :: rest) (sent s ++ [rq])%list).
  assert (Hc1 : config_of s1 = Some c) by (unfold s1; rewrite config_of_http_state; exact Hc).
  assert (Hn1 : net s1 = o2 :: o3 :: rest) by (unfold s1; destruct s; reflexivity).
  destruct o1 as [r1|m1 [r1|]]; simpl.
  - unfold s1; destruct s; simpl; repeat split; try reflexivity.
  - destruct (csrf_rejected r1) as [e|[|]] eqn:Hrej.
    + rewrite (csrf_rejected_inl r1 e Hrej).
      unfold s1; destruct s; simpl; repeat split; reflexivity.
    + unfold bind at 1.
      rewrite (fetchCsrfToken_step url s1 c o2 (o3 :: rest) Hc1 Hn1).
      destruct (exchange_token o2) as [tok|] eqn:Ht; cbn -[http].
      * rewrite (http_step _ _ o3 rest) by (unfold s1; destruct s; reflexivity).
        unfold s1; destruct s; simpl.
        repeat split; try reflexivity.
        rewrite <- !app_assoc; reflexivity.
      * unfold s1; destruct s; simpl; repeat split; try reflexivity.
        rewrite <- !app_assoc; reflexivity.
    + unfold s1; destruct s; simpl; repeat split; reflexivity.
  - unfold s1; destruct s; simpl; repeat split; reflexivity.
Qed.

Lemma makeAdtRequest_unfold url m t d p s s1 c :
  ensureCsrfToken url m s = (inr tt, s1) -> config_of s1 = Some c ->
  exists rq,
    makeAdtRequest url m t d p s = sendWithCsrfRetry url rq (set_config s1 (Some c)) /\
    rq_method rq = m /\ rq_url rq = url /\
    header (rq_headers rq) "x-csrf-token" =
      (if is_post_or_put m then Str.truthy (csrfToken s1) else None) /\
    header (rq_headers rq) "Cookie" = Str.truthy (cookies s1).
Proof.
  intros He Hc.
  destruct (buildRequestConfig_step url m t d p s1 c Hc) as (rq & Hb & Hm & Hu & Hx & Hk).
  exists rq; split; [|auto].
  unfold makeAdtRequest, bind at 1; rewrite He.
  unfold bind; rewrite Hb; reflexivity.
Qed.

Lemma set_config_fields s c :
  net (set_config s c) = net s /\ sent (set_config s c) = sent s /\
  csrfToken (set_config s c) = csrfToken s /\ cookies (set_config s c) = cookies s.
Proof. destruct s; repeat split. Qed.

(** C1. After the first attempt (the request built once the token
    bootstrap for POST/PUT is done) fails with a 403 whose body is a text
    containing [CSRF] (or an array holding the string "CSRF"), exactly
    one bootstrap exchange follows, its token becomes the cached token and
    the request is sent once more with that token; the outcome of that
    retry is the result, whatever it is.  When the bootstrap yields no
    token its error propagates without a retry.  A 403 whose body axios
    parsed into another JSON value (an object, a number, a boolean) makes
    the test itself throw a [TypeError], which propagates with nothing
    more sent.  Any other failure of the first attempt (timeouts, 5xx,
    network errors) is the result, and nothing more is sent. *)
Theorem makeAdtRequest_single_csrf_retry url m t d p s s1 c o1 o2 o3 rest :
  ensureCsrfToken url m s = (inr tt, s1) ->
  config_of s1 = Some c ->
  net s1 = o1 :: o2 :: o3 :: rest ->
  let (res, s') := makeAdtRequest url m t d p s in
  exists rq, rq_method rq = m /\ rq_url rq = url /\
  if is_csrf_rejection o1 then
    match exchange_token o2 with
    | Some tok =>
        res = outcome_result o3 /\ csrfToken s' = Some tok /\
        sent s' = (sent s1 ++ [rq; bootstrap_request url c; with_token rq tok])%list /\
        net s' = rest
    | None =>
        res = inl (Error (fetch_failure o2)) /\
        sent s' = (sent s1 ++ [rq; bootstrap_request url c])%list /\
        net s' = o3 :: rest
    end
  else if csrf_check_throws o1 then
    res = inl (TypeError includes_not_function) /\
    sent s' = (sent s1 ++ [rq])%list /\ net s' = o2 :: o3 :: rest
  else
    res = outcome_result o1 /\
    sent s' = (sent s1 ++ [rq])%list /\ net s' = o2 :: o3 :: rest.
Proof.
  intros He Hc Hn.
  destruct (makeAdtRequest_unfold url m t d p s s1 c He Hc) as (rq & Hmk & Hm & Hu & _).
  rewrite Hmk.
  destruct (set_config_fields s1 (Some c)) as (Hn2 & Hs2 & _).
  pose proof (sendWithCsrfRetry_step url rq (set_config s1 (Some c)) c o1 o2 o3 rest
                (config_of_set s1 c) (eq_trans Hn2 Hn)) as Hstep.
  destruct (sendWithCsrfRetry url rq (set_config s1 (Some c))) as [res s'].
  exists rq; split; [exact Hm|]; split; [exact Hu|].
  rewrite Hs2 in Hstep.
  destruct (is_csrf_rejection o1); [destruct (exchange_token o2)|destruct (csrf_check_throws o1)];
    tauto.
Qed.

(** C1: a CSRF refusal whose body is JSON (axios parses it into an
    object) is not retried: [data?.includes] is not a function, the
    [TypeError] propagates, no token is fetched and the stale token
    stays cached. *)
Lemma makeAdtRequest_json_rejection :
  (exists m, fst (makeAdtRequest SessionSamples.url0 "POST" 30000 None None
                                SessionSamples.s_retry_json) = inl (TypeError m)) /\
  length (sent (snd (makeAdtRequest SessionSamples.url0 "POST" 30000 None None
                       SessionSamples.s_retry_json))) = 1 /\
  csrfToken (snd (makeAdtRequest SessionSamples.url0 "POST" 30000 None None
                    SessionSamples.s_retry_json)) = Some "T0".
Proof. vm_compute. split; [eexists; reflexivity | split; reflexivity]. Qed.

Lemma truthy_truthy o t : Str.truthy o = Some t -> Str.truthy (Some t) = Some t.
Proof.
  unfold Str.truthy; destruct o as [s|]; [|discriminate].
  destruct (String.eqb s "") eqn:E; [discriminate|].
  intros [= <-]; rewrite E; reflexivity.
Qed.

Lemma exchange_token_truthy o t :
  exchange_token o = Some t -> Str.truthy (Some t) = Some t.
Proof.
  unfold exchange_token; destruct (outcome_response o); [apply truthy_truthy|discriminate].
Qed.

Lemma ensureCsrfToken_bootstrap url m s c o rest :
  is_post_or_put m = true -> Str.truthy (csrfToken s) = None ->
  config_of s = Some c -> net s = o :: rest ->
  ensureCsrfToken url m s =
    let s1 := set_net (set_axios (set_config s (Some c)) true) rest
                      (sent s ++ [bootstrap_request url c])%list in
    match exchange_token o with
    | Some t => (inr tt, set_csrf (set_cookies s1 (cookies_after o (cookies s))) (Some t))
    | None => (inl (Error csrf_required_msg), s1)
    end.
Proof.
  intros Hm Ht Hc Hn.
  unfold ensureCsrfToken, bind at 1, get.
  unfold Str.is_truthy; rewrite Ht, Hm; simpl.
  unfold try_catch, bind at 1.
  rewrite (fetchCsrfToken_step url s c o rest Hc Hn).
  destruct (exchange_token o); reflexivity.
Qed.

Lemma sendWithCsrfRetry_sent url rq s c :
  config_of s = Some c ->
  exists more, sent (snd (sendWithCsrfRetry url rq s)) = (sent s ++ rq :: more)%list.
Proof.
  intros Hc.
  unfold sendWithCsrfRetry, try_catch.
  rewrite http_run.
  set (s1 := set_net (set_axios s true) (tl (net s)) (sent s ++ [rq])%list).
  assert (Hc1 : config_of s1 = Some c) by (unfold s1; rewrite config_of_http_state; exact Hc).
  assert (Hs1 : sent s1 = (sent s ++ [rq])%list) by (unfold s1; destruct s; reflexivity).
  destruct (next_outcome (net s)) as [r1|m1 [r1|]]; cbn -[http fetchCsrfToken].
  - exists []; exact Hs1.
  - destruct (csrf_rejected r1) as [e|[|]].
    + exists []; exact Hs1.
    + unfold bind at 1.
      rewrite (fetchCsrfToken_run url s1 c Hc1).
      destruct (exchange_token (next_outcome (net s1))) as [tok|];
        cbn -[http]; [rewrite http_run|];
        unfold s1; destruct s; simpl; eexists; rewrite <- !app_assoc; reflexivity.
    + exists []; exact Hs1.
  - exists []; exact Hs1.
Qed.

(** C5. A POST or PUT with no cached token starts with a token bootstrap
    GET that carries [x-csrf-token: fetch].  When that exchange yields a
    token (from its response headers or, failing that, from the headers of
    its error response), the main request follows with that token and
    with the cookies of that same exchange; when it yields none, the call
    fails with the CSRF error and the main request is never sent. *)
Theorem makeAdtRequest_csrf_bootstrap url m t d p s c o1 rest :
  is_post_or_put m = true -> Str.truthy (csrfToken s) = None ->
  config_of s = Some c -> net s = o1 :: rest ->
  let (res, s') := makeAdtRequest url m t d p s in
  match exchange_token o1 with
  | Some tok =>
      exists rq more,
        sent s' = (sent s ++ bootstrap_request url c :: rq :: more)%list /\
        rq_method rq = m /\ rq_url rq = url /\
        header (rq_headers rq) "x-csrf-token" = Some tok /\
        header (rq_headers rq) "Cookie" = Str.truthy (cookies_after o1 (cookies s))
  | None =>
      res = inl (Error csrf_required_msg) /\
      sent s' = (sent s ++ [bootstrap_request url c])%list /\ net s' = rest
  end.
Proof.
  intros Hm Ht Hc Hn.
  pose proof (ensureCsrfToken_bootstrap url m s c o1 rest Hm Ht Hc Hn) as He.
  destruct (exchange_token o1) as [tok|] eqn:Htok.
  - set (s1 := set_csrf (set_cookies (set_net (set_axios (set_config s (Some c)) true) rest
                  (sent s ++ [bootstrap_request url c])%list) (cookies_after o1 (cookies s)))
                  (Some tok)) in He.
    assert (Hc1 : config_of s1 = Some c) by (unfold s1; destruct s; reflexivity).
    destruct (makeAdtRequest_unfold url m t d p s s1 c He Hc1)
      as (rq & Hmk & Hrm & Hru & Hx & Hk).
    rewrite Hmk.
    destruct (sendWithCsrfRetry_sent url rq (set_config s1 (Some c)) c (config_of_set s1 c))
      as [more Hmore].
    destruct (sendWithCsrfRetry url rq (set_config s1 (Some c))) as [res s'] eqn:Hsend.
    simpl in Hmore.
    exists rq, more.
    rewrite Hm in Hx.
    split; [|split; [exact Hrm|split; [exact Hru|split]]].
    + rewrite Hmore. unfold s1; destruct s; simpl.
      rewrite <- app_assoc; reflexivity.
    + rewrite Hx; unfold s1; destruct s; simpl.
      exact (exchange_token_truthy o1 tok Htok).
    + rewrite Hk; unfold s1; destruct s; reflexivity.
  - unfold makeAdtRequest, bind at 1; rewrite He.
    destruct s; simpl; repeat split; reflexivity.
Qed.

Lemma token_kept_refl s : token_kept s s.
Proof. left; reflexivity. Qed.

Lemma token_kept_trans s1 s2 s3 :
  token_kept s1 s2 -> token_kept s2 s3 -> token_kept s1 s3.
Proof.
  intros [H12|H12] [H23|H23].
  - left; congruence.
  - right; exact H23.
  - right; rewrite H23; exact H12.
  - right; exact H23.
Qed.

Lemma getAuthHeaders_none s :
  config_of s = None -> exists m, getAuthHeaders s = (inl (Error m), s).
Proof.
  destruct s as [e ax [c0|] tok ck n l]; unfold config_of; simpl; [discriminate|].
  destruct (getConfig e) as [m|c] eqn:Hg; [|discriminate].
  intros _; exists m.
  unfold getAuthHeaders, bind, get; simpl; rewrite Hg; reflexivity.
Qed.

Lemma fetchCsrfToken_source url s :
  match fetchCsrfToken url s with
  | (inr tok, s') =>
      exchange_token (next_outcome (net s)) = Some tok /\
      cookies s' = cookies_after (next_outcome (net s)) (cookies s) /\
      csrfToken s' = csrfToken s
  | (inl _, s') => csrfToken s' = csrfToken s
  end.
Proof.
  destruct (config_of s) as [c|] eqn:Hc.
  - rewrite (fetchCsrfToken_run url s c Hc); cbv zeta.
    destruct (exchange_token (next_outcome (net s))) eqn:Ht;
      destruct s; simpl; auto.
  - assert (Hc' : config_of (set_axios s true) = None) by (destruct s; exact Hc).
    destruct (getAuthHeaders_none _ Hc') as [m Hg].
    unfold fetchCsrfToken, try_catch, bind at 1, createAxiosInstance, modify.
    unfold bind at 1; rewrite Hg; destruct s; reflexivity.
Qed.

Lemma fetchCsrfToken_token url s :
  csrfToken (snd (fetchCsrfToken url s)) = csrfToken s.
Proof.
  pose proof (fetchCsrfToken_source url s) as H.
  destruct (fetchCsrfToken url s) as [[e|t] s']; simpl; tauto.
Qed.

Lemma fetchCsrfToken_truthy url s tok s' :
  fetchCsrfToken url s = (inr tok, s') -> Str.truthy (Some tok) = Some tok.
Proof.
  intros H; pose proof (fetchCsrfToken_source url s) as Hs; rewrite H in Hs.
  exact (exchange_token_truthy _ _ (proj1 Hs)).
Qed.

Lemma getAuthHeaders_token s : csrfToken (snd (getAuthHeaders s)) = csrfToken s.
Proof.
  destruct (config_of s) as [c|] eqn:Hc.
  - rewrite (getAuthHeaders_step s c Hc); destruct s; reflexivity.
  - destruct (getAuthHeaders_none s Hc) as [m ->]; reflexivity.
Qed.

Lemma http_token rq s : csrfToken (snd (http rq s)) = csrfToken s.
Proof. rewrite http_run; destruct s; reflexivity. Qed.

(** Storing the result of a token fetch keeps the token. *)
Lemma fetch_and_store_kept url s :
  token_kept s (snd (bind (fetchCsrfToken url)
                          (fun token => modify (fun s => set_csrf s (Some token))) s)).
Proof.
  unfold bind.
  destruct (fetchCsrfToken url s) as [[e|tok] s'] eqn:Hf; simpl.
  - left; rewrite <- (fetchCsrfToken_token url s), Hf; reflexivity.
  - right; exists tok; split; [destruct s'; reflexivity|].
    exact (fetchCsrfToken_truthy url s tok s' Hf).
Qed.

Lemma ensureCsrfToken_kept url m s :
  token_kept s (snd (ensureCsrfToken url m s)).
Proof.
  unfold ensureCsrfToken, bind at 1, get.
  destruct (is_post_or_put m && negb (Str.is_truthy (csrfToken s))).
  - unfold try_catch.
    pose proof (fetch_and_store_kept url s) as H.
    destruct (bind (fetchCsrfToken url) _ s) as [[e|u] s']; exact H.
  - apply token_kept_refl.
Qed.

Lemma buildRequestConfig_token url m t d p s :
  csrfToken (snd (buildRequestConfig url m t d p s)) = csrfToken s.
Proof.
  unfold buildRequestConfig, bind at 1.
  pose proof (getAuthHeaders_token s) as H.
  destruct (getAuthHeaders s) as [[e|h] s']; simpl in *; exact H.
Qed.

Lemma sendWithCsrfRetry_kept url rq s :
  token_kept s (snd (sendWithCsrfRetry url rq s)).
Proof.
  unfold sendWithCsrfRetry, try_catch.
  pose proof (http_token rq s) as H.
  destruct (http rq s) as [[e|r] s1]; simpl in H.
  - destruct e as [msg [r|]|msg|msg]; try (left; exact H).
    destruct (csrf_rejected r) as [e|[|]]; [left; exact H| |left; exact H].
    unfold bind at 1.
    pose proof (fetchCsrfToken_token url s1) as Ht.
    destruct (fetchCsrfToken url s1) as [[e|tok] s2] eqn:Hf; simpl in Ht.
    + left; simpl; congruence.
    + right; exists tok.
      unfold bind, modify; rewrite http_token.
      split; [destruct s2; reflexivity|].
      exact (fetchCsrfToken_truthy url s1 tok s2 Hf).
  - left; exact H.
Qed.

(** C9. The executor never clears a cached token: after any
    [makeAdtRequest] the token is the one before or a fresh non-empty one;
    only [cleanup] clears token, cookies, configuration and client.  Every
    token [fetchCsrfToken] hands back comes from the exchange it performed
    (its response or its error response), and the cookie string is then
    the [set-cookie] headers of that same exchange when it has them. *)
Theorem csrf_token_lifecycle :
  (forall url m t d p s, token_kept s (snd (makeAdtRequest url m t d p s))) /\
  (forall s, csrfToken (cleanup s) = None /\ cookies (cleanup s) = None /\
             config (cleanup s) = None /\ axiosInstance (cleanup s) = false) /\
  (forall url s,
     match fetchCsrfToken url s with
     | (inr tok, s') =>
         exchange_token (next_outcome (net s)) = Some tok /\
         cookies s' = cookies_after (next_outcome (net s)) (cookies s)
     | (inl _, _) => True
     end).
Proof.
  split; [|split].
  - intros url m t d p s.
    unfold makeAdtRequest, bind at 1.
    pose proof (ensureCsrfToken_kept url m s) as H1.
    destruct (ensureCsrfToken url m s) as [[e|u] s1]; [exact H1|].
    simpl in H1; unfold bind.
    pose proof (buildRequestConfig_token url m t d p s1) as H2.
    destruct (buildRequestConfig url m t d p s1) as [[e|rq] s2]; simpl in *.
    + eapply token_kept_trans; [exact H1|left; exact H2].
    + eapply token_kept_trans; [exact H1|].
      eapply token_kept_trans; [left; exact H2|apply sendWithCsrfRetry_kept].
  - intros s; repeat split.
  - intros url s.
    pose proof (fetchCsrfToken_source url s) as H.
    destruct (fetchCsrfToken url s) as [[e|tok] s']; tauto.
Qed.

End SessionProofs.

Module SessionWitnesses.
Import Config Session SessionFacts SessionSamples SessionProofs.

Lemma makeAdtRequest_single_csrf_retry_witness :
  ensureCsrfToken url0 "POST" s_retry = (inr tt, s_retry) /\
  config_of s_retry = Some cfg0 /\
  net s_retry = [rejected403; token_reply; Ok ok_reply] /\
  fst (makeAdtRequest url0 "POST" 30000 None None s_retry) = inr ok_reply /\
  csrfToken (snd (makeAdtRequest url0 "POST" 30000 None None s_retry)) = Some "T1" /\
  length (sent (snd (makeAdtRequest url0 "POST" 30000 None None s_retry))) = 3.
Proof.
  pose proof (makeAdtRequest_single_csrf_retry url0 "POST" 30000 None None s_retry s_retry
                cfg0 rejected403 token_reply (Ok ok_reply) [] eq_refl eq_refl eq_refl) as H.
  destruct (makeAdtRequest url0 "POST" 30000 None None s_retry) as [res s'].
  destruct H as (rq & _ & _ & Hres & Htok & Hsent & _).
  split; [reflexivity|]; split; [reflexivity|]; split; [reflexivity|].
  simpl; rewrite Hsent; split; [exact Hres|split; [exact Htok|reflexivity]].
Defined.

Lemma makeAdtRequest_csrf_bootstrap_witness :
  is_post_or_put "POST" = true /\ Str.truthy (csrfToken s_fresh) = None /\
  config_of s_fresh = Some cfg0 /\ net s_fresh = [token_reply; Ok ok_reply] /\
  exists rq more,
    sent (snd (makeAdtRequest url0 "POST" 30000 None None s_fresh)) =
      bootstrap_request url0 cfg0 :: rq :: more /\
    header (rq_headers rq) "x-csrf-token" = Some "T1" /\
    header (rq_headers rq) "Cookie" =
      Some "sap-usercontext=sap-client=100; SAP_SESSIONID=abc".
Proof.
  pose proof (makeAdtRequest_csrf_bootstrap url0 "POST" 30000 None None s_fresh cfg0
                token_reply [Ok ok_reply] eq_refl eq_refl eq_refl eq_refl) as H.
  destruct (makeAdtRequest url0 "POST" 30000 None None s_fresh) as [res s'].
  destruct H as (rq & more & Hsent & _ & _ & Hx & Hk).
  split; [reflexivity|]; split; [reflexivity|]; split; [reflexivity|];
    split; [reflexivity|].
  exists rq, more; simpl; split; [exact Hsent|split; [exact Hx|exact Hk]].
Defined.

End SessionWitnesses.

(* ------------------------------------------------------------------ *)
(** ** The transformation dispatch *)

Module DispatchProofs.
Import JS Dispatch.

(** C2: with a transformer and raw mode off, a failure of the XML parser
    or of the transformer yields [isError: false] with the untransformed
    body as text; [return_response] itself never throws (it is total) and
    never sets [isError]. *)
Theorem return_response_transform_failure_fallback
    (fullParse stringify : jsval -> string + jsval)
    (RETURN_RAW_XML : option string) (data : jsval)
    (transformer : jsval -> string + jsval) :
  RETURN_RAW_XML <> Some "true" ->
  ((exists e, fullParse data = inl e) \/
   (exists parsed e, fullParse data = inr parsed /\ transformer parsed = inl e)) ->
  return_response fullParse stringify RETURN_RAW_XML data (Some transformer)
    = text_envelope data
  /\ isError (return_response fullParse stringify RETURN_RAW_XML data (Some transformer))
     = false.
Proof.
  intros Hraw Hfail.
  assert (Hoff : match RETURN_RAW_XML with Some v => String.eqb v "true" | None => false end
                 = false).
  { destruct RETURN_RAW_XML as [v|]; [|reflexivity].
    destruct (String.eqb_spec v "true"); [subst; congruence | reflexivity]. }
  unfold return_response; rewrite Hoff.
  destruct Hfail as [[e He] | [p [e [Hp Ht]]]].
  - rewrite He; split; reflexivity.
  - rewrite Hp, Ht; split; reflexivity.
Qed.

(** C8: raw mode is on exactly when [RETURN_RAW_XML] is the string
    "true": then the text is the response body, unchanged; for any other
    value or an absent variable, a successful parse, transform and
    serialisation give the serialised transformed value as text. *)
Theorem return_response_raw_mode
    (fullParse stringify : jsval -> string + jsval)
    (RETURN_RAW_XML : option string) (data : jsval)
    (transformer : jsval -> string + jsval) :
  (RETURN_RAW_XML = Some "true" ->
   return_response fullParse stringify RETURN_RAW_XML data (Some transformer)
     = text_envelope data) /\
  (forall parsed transformed out,
   RETURN_RAW_XML <> Some "true" ->
   fullParse data = inr parsed -> transformer parsed = inr transformed ->
   stringify transformed = inr out ->
   return_response fullParse stringify RETURN_RAW_XML data (Some transformer)
     = text_envelope out).
Proof.
  split.
  - intros ->; reflexivity.
  - intros p t out Hraw Hp Ht Hs.
    unfold return_response.
    destruct RETURN_RAW_XML as [v|].
    + destruct (String.eqb_spec v "true"); [subst; congruence|].
      rewrite Hp, Ht, Hs; reflexivity.
    + rewrite Hp, Ht, Hs; reflexivity.
Qed.

End DispatchProofs.

Module DispatchWitnesses.
Import JS Dispatch TreeSamples.

Lemma return_response_transform_failure_fallback_witness :
  return_response failing_parse echo None (JStr "<a></b>") (Some wrap)
    = text_envelope (JStr "<a></b>")
  /\ isError (return_response failing_parse echo None (JStr "<a></b>") (Some wrap)) = false.
Proof.
  apply (DispatchProofs.return_response_transform_failure_fallback
           failing_parse echo None (JStr "<a></b>") wrap).
  - discriminate.
  - left; exists "Unexpected close tag"; reflexivity.
Defined.

Lemma return_response_raw_mode_witness :
  return_response echo echo (Some "true") (JStr "<a/>") (Some wrap)
    = text_envelope (JStr "<a/>")
  /\ return_response echo echo (Some "1") (JStr "<a/>") (Some wrap)
    = text_envelope (JObj [("parsed", JStr "<a/>")]).
Proof.
  split.
  - apply (proj1 (DispatchProofs.return_response_raw_mode
                    echo echo (Some "true") (JStr "<a/>") wrap)); reflexivity.
  - apply (proj2 (DispatchProofs.return_response_raw_mode
                    echo echo (Some "1") (JStr "<a/>") wrap)
             (JStr "<a/>") (JObj [("parsed", JStr "<a/>")])); try reflexivity.
    discriminate.
Defined.

End DispatchWitnesses.

(* ------------------------------------------------------------------ *)
(** ** XML navigation *)

(** Decimal digits. *)
Module DigitFacts.

Lemma digits_rev_digits (fuel n : nat) :
  Forall (fun c => Ddic.is_digit c = true) (JS.digits_rev fuel n).
Proof.
  revert n; induction fuel as [|f IH]; intros n; cbn [JS.digits_rev]; [constructor|].
  constructor.
  - unfold Ddic.is_digit. rewrite nat_ascii_embedding.
    + pose proof (Nat.mod_upper_bound n 10 ltac:(discriminate)).
      apply andb_true_iff; split; apply Nat.leb_le; lia.
    + pose proof (Nat.mod_upper_bound n 10 ltac:(discriminate)); lia.
  - destruct (Nat.ltb n 10); [constructor | apply IH].
Qed.

End DigitFacts.

Module XmlProofs.
Import JS Xml TreeSamples.


(** No array index is spelt with a character other than a digit. *)
Lemma index_key_non_digit (k : string) (len : nat) :
  existsb (fun c => negb (Ddic.is_digit c)) (list_ascii_of_string k) = true ->
  index_key k len = None.
Proof.
  intros Hk. induction len as [|n IH]; [reflexivity|].
  change (index_key k (S n)) with
    (if String.eqb k (nat_to_string n) then Some n else index_key k n).
  destruct (String.eqb_spec k (nat_to_string n)) as [E|]; [|exact IH].
  exfalso. subst k. unfold nat_to_string in Hk.
  rewrite list_ascii_of_string_of_list_ascii in Hk.
  apply existsb_exists in Hk as [c [Hc Hd]].
  apply in_rev in Hc.
  pose proof (DigitFacts.digits_rev_digits (S n) n) as Hall. rewrite Forall_forall in Hall.
  rewrite (Hall c Hc) in Hd. discriminate.
Qed.

Lemma opt_get_arr_text (xs : list jsval) : opt_get (JArr xs) "_text" = JUndefined.
Proof.
  unfold opt_get; simpl is_nullish; cbv iota.
  unfold get. rewrite index_key_non_digit by reflexivity. reflexivity.
Qed.

(** C4 (what holds): a path the loop cannot follow gives the empty
    sequence, a repeated element its entries unchanged, an element node
    one entry unless its text is itself a list (mixed content, which
    xml-js reads as an array of text pieces); the result depends on
    nothing but the tree and the path. *)
Theorem xmlArray_shapes (obj : jsval) (path : list string) :
  (walk obj path = None -> xmlArray obj path = []) /\
  (forall xs, walk obj path = Some (JArr xs) -> xmlArray obj path = xs) /\
  (forall fs, walk obj path = Some (JObj fs) ->
              (forall ys, get (JObj fs) "_text" <> JArr ys) ->
              length (xmlArray obj path) = 1) /\
  xmlArray obj path = xmlArray obj path.
Proof.
  unfold xmlArray, xmlNode.
  split; [|split; [|split]].
  - intros ->; reflexivity.
  - intros xs ->. rewrite opt_get_arr_text. reflexivity.
  - intros fs -> Hnot. unfold opt_get, or. cbv iota beta. simpl is_nullish. cbv iota.
    remember (get (JObj fs) "_text") as v eqn:Hv.
    destruct (truthy v) eqn:Ht; cbv iota.
    + rewrite Ht; simpl negb; cbv iota.
      destruct v as [| |b|n| |ng|s|items|fs'|o k|o]; try reflexivity.
      exfalso; apply (Hnot items); reflexivity.
    + reflexivity.
  - reflexivity.
Qed.

(** C4: an element name that is a member of [Object.prototype] passes
    the [in] test although the tree has no such element: the path is
    absent, yet [xmlArray] returns the inherited function. *)
Lemma xmlArray_inherited_member :
  own [("abapsource:entry", JArr [])] "constructor" = None /\
  xmlArray (properties []) ["constructor"] = [JBuiltin "Object.prototype" "constructor"].
Proof. split; reflexivity. Qed.

(** A single element with mixed content: xml-js gives its text pieces as
    an array, and [xmlArray] returns the pieces. *)
Lemma xmlArray_mixed_content :
  xmlArray (JObj [("DESCRIPTION", JObj [("_text", JArr [JStr "a"; JStr "b"]);
                                         ("br", JObj [])])]) ["DESCRIPTION"]
    = [JStr "a"; JStr "b"].
Proof. reflexivity. Qed.

End XmlProofs.

Module XmlWitnesses.
Import JS Xml TreeSamples.

Lemma xmlArray_shapes_witness :
  xmlArray three_node_tree ["asx:abap"; "asx:values"; "DATA"; "TREE_CONTENT";
                            "SEU_ADT_REPOSITORY_OBJ_NODE"]
    = [class_node; nameless_node; table_node]
  /\ length (xmlArray (package_tree [class_node])
               ["asx:abap"; "asx:values"; "DATA"; "TREE_CONTENT"]) = 1
  /\ xmlArray three_node_tree ["asx:abap"; "asx:missing"] = [].
Proof.
  split; [|split].
  - apply (proj1 (proj2 (XmlProofs.xmlArray_shapes three_node_tree
             ["asx:abap"; "asx:values"; "DATA"; "TREE_CONTENT";
              "SEU_ADT_REPOSITORY_OBJ_NODE"]))); reflexivity.
  - eapply (proj1 (proj2 (proj2 (XmlProofs.xmlArray_shapes (package_tree [class_node])
             ["asx:abap"; "asx:values"; "DATA"; "TREE_CONTENT"])))).
    + reflexivity.
    + intros ys; simpl; discriminate.
  - apply (proj1 (XmlProofs.xmlArray_shapes three_node_tree ["asx:abap"; "asx:missing"]));
      reflexivity.
Defined.

End XmlWitnesses.

(* ------------------------------------------------------------------ *)
(** ** The package-info transformer *)

Module PackageProofs.
Import JS Package TreeSamples.












End PackageProofs.

Module PackageWitnesses.
Import JS Package TreeSamples.


End PackageWitnesses.

(* ------------------------------------------------------------------ *)
(** ** Metadata property bags *)

Module DdicProofs.
Import JS Xml Package Ddic TreeSamples.

Lemma slot_nil (N : nat) : slot [] N = None.
Proof. destruct N; reflexivity. Qed.

Lemma slot_set_slot (l : list (option DdicAnnotation)) (i N : nat) (a : DdicAnnotation) :
  slot (set_slot l i a) N = if Nat.eqb i N then Some a else slot l N.
Proof.
  revert l N; induction i as [|i IH]; intros l N.
  - destruct l, N as [|[|N]]; reflexivity.
  - destruct l as [|x l], N as [|N].
    + reflexivity.
    + change (slot (set_slot [] i a) N = if Nat.eqb i N then Some a else slot [] (S N)).
      rewrite IH, !slot_nil. reflexivity.
    + reflexivity.
    + change (slot (set_slot l i a) N = if Nat.eqb i N then Some a else slot l N).
      apply IH.
Qed.

Lemma opt_N_eqb_spec (x y : option N) : reflect (x = y) (opt_N_eqb x y).
Proof.
  destruct x as [a|], y as [b|]; simpl; try (constructor; congruence).
  destruct (N.eqb_spec a b); constructor; congruence.
Qed.

Lemma anno_slot_eqb_spec (a b : anno_slot) : reflect (a = b) (anno_slot_eqb a b).
Proof.
  destruct a as [i|x], b as [j|y]; simpl; try (constructor; congruence).
  - destruct (Nat.eqb_spec i j); constructor; congruence.
  - destruct (opt_N_eqb_spec x y); constructor; congruence.
Qed.

Lemma named_lookup_set (l : list (option N * DdicAnnotation)) (x y : option N)
    (a : DdicAnnotation) :
  named_lookup (named_set l x a) y = if opt_N_eqb x y then Some a else named_lookup l y.
Proof.
  induction l as [|[z b] l IH]; simpl.
  - destruct (opt_N_eqb_spec y x), (opt_N_eqb_spec x y); congruence.
  - destruct (opt_N_eqb_spec x z) as [<-|Hxz]; simpl.
    + destruct (opt_N_eqb_spec y x), (opt_N_eqb_spec x y); congruence.
    + rewrite IH. destruct (opt_N_eqb_spec y z), (opt_N_eqb_spec x y); congruence.
Qed.

Lemma read_write_slot (a : AnnotationArray) (sl N : anno_slot) (v : DdicAnnotation) :
  read_slot (write_slot a sl v) N = if anno_slot_eqb sl N then Some v else read_slot a N.
Proof.
  destruct sl as [i|x], N as [j|y]; simpl.
  - apply slot_set_slot.
  - reflexivity.
  - reflexivity.
  - apply named_lookup_set.
Qed.

Lemma read_slot_empty (N : anno_slot) : read_slot (mkAnnotations [] []) N = None.
Proof. destruct N; simpl; [apply slot_nil | reflexivity]. Qed.

Lemma annotation_step_index (acc : AnnotationArray) (kv : string * jsval) :
  annotation_step acc kv =
  match anno_index (fst kv) with
  | Some (is_key, idx) =>
      let anno := match read_slot acc idx with
                  | Some a => a
                  | None => mkAnnotation (JStr "") (JStr "")
                  end in
      write_slot acc idx (if is_key then mkAnnotation (snd kv) (value anno)
                          else mkAnnotation (key anno) (snd kv))
  | None => acc
  end.
Proof.
  unfold annotation_step, anno_index.
  destruct (regex_match (fst kv)) as [[b d]|]; reflexivity.
Qed.

Lemma last_for_acc (b : bool) (N : anno_slot) (l : list (string * jsval)) (x : jsval) :
  last_for b N l (Some x) =
  match last_for b N l None with Some y => Some y | None => Some x end.
Proof.
  revert x; induction l as [|kv l IH]; intros x; simpl; [reflexivity|].
  destruct (anno_index (fst kv)) as [[b' i]|].
  - destruct (Bool.eqb b' b && anno_slot_eqb i N); [|apply IH].
    rewrite IH. destruct (last_for b N l None); reflexivity.
  - apply IH.
Qed.

(** The loop writes each entry to the slot of its own index only. *)
Lemma slot_fold (l : list (string * jsval)) (acc : AnnotationArray) (N : anno_slot) :
  read_slot (fold_left annotation_step l acc) N =
  pair_from (read_slot acc N) (last_for true N l None) (last_for false N l None).
Proof.
  revert acc; induction l as [|kv l IH]; intros acc; simpl.
  - destruct (read_slot acc N); reflexivity.
  - rewrite IH, annotation_step_index.
    destruct (anno_index (fst kv)) as [[b i]|] eqn:Ei; [|reflexivity].
    rewrite read_write_slot.
    destruct (anno_slot_eqb_spec i N) as [<-|Hne].
    + destruct b; simpl; rewrite last_for_acc;
        destruct (last_for true i l None), (last_for false i l None), (read_slot acc i);
        reflexivity.
    + rewrite !andb_false_r. reflexivity.
Qed.

Lemma round_double_small (n : N) : (n < 2 ^ 53)%N -> round_double n = Some n.
Proof.
  intros H; unfold round_double.
  replace (N.ltb n (2 ^ 53)) with true by (symmetry; apply N.ltb_lt; exact H).
  reflexivity.
Qed.

(** Rounding keeps a number of 54 or more bits at 2^53 or above. *)
Lemma round_double_large (n x : N) :
  (2 ^ 53 <= n)%N -> round_double n = Some x -> (2 ^ 53 <= x)%N.
Proof.
  intros Hn; unfold round_double.
  replace (N.ltb n (2 ^ 53)) with false by (symmetry; apply N.ltb_ge; exact Hn).
  cbv zeta.
  assert (Hl : (53 <= N.log2 n)%N) by (apply N.log2_le_pow2; [lia | exact Hn]).
  set (sh := (N.log2 n - 52)%N).
  assert (Hsh : (sh + 52 = N.log2 n)%N) by (unfold sh; lia).
  assert (Hq : (2 ^ 52 <= N.shiftr n sh)%N).
  { rewrite N.shiftr_div_pow2. apply N.div_le_lower_bound.
    - apply N.pow_nonzero; discriminate.
    - rewrite <- N.pow_add_r, Hsh.
      apply N.log2_spec; lia. }
  assert (Hp : (2 <= 2 ^ sh)%N).
  { change 2%N with (2 ^ 1)%N at 1. apply N.pow_le_mono_r; [discriminate | unfold sh; lia]. }
  set (q := N.shiftr n sh) in *.
  set (q' := if N.ltb (N.shiftl 1 (sh - 1)) (n - N.shiftl q sh)
                || (N.eqb (n - N.shiftl q sh) (N.shiftl 1 (sh - 1)) && N.odd q)
             then (q + 1)%N else q).
  assert (Hq' : (q <= q')%N) by (unfold q'; destruct (_ || _); lia).
  destruct (N.ltb (N.shiftl q' sh) (2 ^ 1024)); [|discriminate].
  intros [= <-]. rewrite N.shiftl_mul_pow2.
  change (2 ^ 53)%N with (2 ^ 52 * 2)%N.
  apply N.mul_le_mono; lia.
Qed.

Lemma is_digit_char (c : ascii) :
  is_digit c = true ->
  In c ["0"; "1"; "2"; "3"; "4"; "5"; "6"; "7"; "8"; "9"]%char.
Proof.
  destruct c as [[] [] [] [] [] [] [] []]; vm_compute;
    first [ discriminate | intros _; tauto ].
Qed.

(** [parseInt] of a text that starts with a digit reads its leading
    digits: no white space to skip, no sign. *)
Lemma parseInt_digits (d : string) (n : N) :
  digit_prefix d 0 false = Some n -> parseInt10 (JStr d) = signed_number false n.
Proof.
  destruct d as [|c d']; [discriminate|]. intros H.
  assert (Hc : is_digit c = true)
    by (simpl in H; destruct (is_digit c); [reflexivity | discriminate]).
  assert (Hs : skip_spaces (String c d') = String c d' /\
               sign_split (String c d') = (false, String c d')).
  { apply is_digit_char in Hc.
    repeat (destruct Hc as [<-|Hc]; [destruct d' as [|b [|e d']]; split; reflexivity|]).
    destruct Hc. }
  unfold parseInt10; simpl to_string.
  destruct Hs as [-> ->]. rewrite H. reflexivity.
Qed.

(** The slot [annotations[toInt(d)]] for the digits [d] of value [n]. *)
Lemma slot_of_digits_value (d : string) (n : N) :
  digit_prefix d 0 false = Some n ->
  slot_of_digits d =
    if N.ltb n 4294967295 then Elem (N.to_nat n) else Named (round_double n).
Proof.
  intros H. unfold slot_of_digits, toInt. rewrite (parseInt_digits d n H).
  unfold signed_number.
  destruct (N.ltb_spec n 4294967295) as [Hlt|Hge].
  - rewrite round_double_small by lia.
    replace (Z.ltb (Z.of_N n) 4294967295) with true by (symmetry; apply Z.ltb_lt; lia).
    rewrite <- N_nat_Z, Nat2Z.id. reflexivity.
  - destruct (round_double n) as [x|] eqn:Hr; [|reflexivity].
    assert (Hx : (4294967295 <= x)%N).
    { destruct (N.ltb_spec n (2 ^ 53)).
      - rewrite round_double_small in Hr by lia. injection Hr as <-; lia.
      - pose proof (round_double_large n x ltac:(lia) Hr). lia. }
    replace (Z.ltb (Z.of_N x) 4294967295) with false by (symmetry; apply Z.ltb_ge; lia).
    rewrite N2Z.id. reflexivity.
Qed.

(** Four distinct entries have the 24 orders of the list. *)
Ltac pick H :=
  destruct H as [<-|[<-|[<-|[<-|[]]]]].

(** C3: every slot of the annotations (an element or another property
    of the array) holds the last key entry and the last value entry that
    select it (the missing one empty), whatever the order and contiguity
    of the entries.  The digits of value [N] select element [N] when [N]
    is below 2^32 - 1; a larger [N] selects no element but the property
    named after [N] rounded to a double (Infinity past the largest).  In
    particular the entries annotationKey.0=A, annotationValue.1=B,
    annotationValue.0=C, annotationKey.1=D, in any order, give
    [{A, C}; {D, B}]. *)
Theorem parseDDICProps_annotation_pairs :
  (forall (rawanno : list (string * jsval)) (N : anno_slot),
      read_slot (annotations_of rawanno) N = pair_at rawanno N) /\
  (forall (k : string) (is_key : bool) (d : string) (n : N),
      regex_match k = Some (is_key, d) -> digit_prefix d 0 false = Some n ->
      anno_index k = Some (is_key, if N.ltb n 4294967295 then Elem (N.to_nat n)
                                   else Named (round_double n))) /\
  (forall entries, Permutation entries [anno_A; anno_B; anno_C; anno_D] ->
      parseDDICProps (properties entries)
        = inr (mkDdicProperties (EPValue (JBool false))
                 (mkAnnotations [Some (mkAnnotation (JStr "A") (JStr "C"));
                                 Some (mkAnnotation (JStr "D") (JStr "B"))] []))).
Proof.
  split; [|split].
  - intros l N. unfold annotations_of, pair_at.
    rewrite slot_fold, read_slot_empty. reflexivity.
  - intros k is_key d n Hk Hd. unfold anno_index. rewrite Hk.
    rewrite (slot_of_digits_value d n Hd). reflexivity.
  - intros entries Hp.
    assert (Hl := Permutation_length Hp).
    assert (Hin : forall x, In x entries -> In x [anno_A; anno_B; anno_C; anno_D])
      by (intros x Hx; exact (Permutation_in x Hp Hx)).
    assert (Hnd : NoDup entries).
    { apply (Permutation_NoDup (Permutation_sym Hp)).
      repeat constructor; simpl; intuition discriminate. }
    destruct entries as [|x1 [|x2 [|x3 [|x4 [|x5 r]]]]]; simpl in Hl; try discriminate.
    pose proof (Hin x1 ltac:(simpl; tauto)) as H1.
    pose proof (Hin x2 ltac:(simpl; tauto)) as H2.
    pose proof (Hin x3 ltac:(simpl; tauto)) as H3.
    pose proof (Hin x4 ltac:(simpl; tauto)) as H4.
    clear Hin Hp Hl.
    pick H1; pick H2; pick H3; pick H4;
      first [ vm_compute; reflexivity
            | exfalso;
              repeat match goal with
                     | H : NoDup (_ :: _) |- _ => apply NoDup_cons_iff in H as [? H]
                     end;
              simpl in *; tauto ].
Qed.

Lemma truthy_str (s : string) : s <> "" -> truthy (JStr s) = true.
Proof.
  intros H; simpl. destruct (String.eqb_spec s ""); [contradiction | reflexivity].
Qed.

Lemma int_field_absent (v : jsval) :
  v = JUndefined \/ v = JStr "" -> int_field v = JUndefined.
Proof. intros [-> | ->]; reflexivity. Qed.

Lemma int_field_nan (s : string) :
  s <> "" -> digit_prefix (snd (sign_split (skip_spaces s))) 0 false = None ->
  int_field (JStr s) = JNaN.
Proof.
  intros Hs Hd. unfold int_field. rewrite truthy_str by exact Hs.
  unfold parseInt10. simpl to_string.
  destruct (sign_split (skip_spaces s)) as [neg body]; simpl in Hd.
  rewrite Hd; reflexivity.
Qed.

Lemma int_field_num (s : string) (n : N) :
  s <> "" -> digit_prefix (snd (sign_split (skip_spaces s))) 0 false = Some n ->
  int_field (JStr s) = signed_number (fst (sign_split (skip_spaces s))) n.
Proof.
  intros Hs Hd. unfold int_field. rewrite truthy_str by exact Hs.
  unfold parseInt10. simpl to_string.
  destruct (sign_split (skip_spaces s)) as [neg body]; simpl in Hd |- *.
  rewrite Hd; reflexivity.
Qed.

Lemma is_str_true (v : jsval) : is_str v "true" = true <-> v = JStr "true".
Proof.
  destruct v; simpl; split; intros H; try discriminate.
  - apply String.eqb_eq in H; subst; reflexivity.
  - injection H as ->; reflexivity.
Qed.

(** C7 (as the code behaves): once [ddicDataType] is present (the empty
    string included), [elementProps] is built without any exception; each
    numeric field is undefined when its entry is absent or empty, NaN when
    its text has no leading digits after white space (the StrWhiteSpaceChar
    set) and an optional sign, and otherwise the integer of the leading
    digits with its sign, rounded to the nearest double (Infinity past the
    largest); [ddicIsKey] is true exactly for the text "true". *)
Theorem element_props_fields (converted : list (string * jsval)) :
  truthy (get (JObj converted) "ddicDataType") = true \/
  get (JObj converted) "ddicDataType" = JStr "" ->
  exists p, element_props converted = EPObject p /\
    (ddicIsKey p = true <-> get (JObj converted) "ddicIsKey" = JStr "true") /\
    Forall (fun f =>
      let v := get (JObj converted) (fst f) in
      (v = JUndefined \/ v = JStr "" -> snd f p = JUndefined) /\
      (forall s, v = JStr s -> s <> "" ->
         digit_prefix (snd (sign_split (skip_spaces s))) 0 false = None ->
         snd f p = JNaN) /\
      (forall s n, v = JStr s -> s <> "" ->
         digit_prefix (snd (sign_split (skip_spaces s))) 0 false = Some n ->
         snd f p = signed_number (fst (sign_split (skip_spaces s))) n)) numeric_fields.
Proof.
  intros Hty.
  assert (Hg : truthy (or (get (JObj converted) "ddicDataType")
                          (JBool (is_str (get (JObj converted) "ddicDataType") ""))) = true).
  { unfold or. destruct Hty as [Ht | He].
    - rewrite Ht; exact Ht.
    - rewrite He; reflexivity. }
  unfold element_props. rewrite Hg.
  eexists; split; [reflexivity|].
  split; [apply is_str_true|].
  apply Forall_forall; intros f Hf; unfold numeric_fields in Hf.
  repeat (destruct Hf as [<-|Hf];
    [ cbn [fst snd ddicLength ddicDecimals ddicHeadingLength ddicLabelShortLength
           ddicLabelMediumLength ddicLabelLongLength];
      split; [|split];
      [ apply int_field_absent
      | intros s Hv; rewrite Hv; apply int_field_nan
      | intros s n Hv; rewrite Hv; apply int_field_num ] | ]).
  destruct Hf.
Qed.

(** C7: a length entry whose text is not a number gives NaN, not
    undefined. *)
Lemma parseDDICProps_length_nan :
  exists p,
    parseDDICProps (properties [entry "ddicDataType" "CHAR"; entry "ddicLength" "n/a"])
      = inr (mkDdicProperties (EPObject p) (mkAnnotations [] [])) /\
    ddicLength p = JNaN /\ ddicLength p <> JUndefined.
Proof.
  eexists; split; [vm_compute; reflexivity|].
  split; [reflexivity | discriminate].
Qed.

(** C3: an index of 2^53 or more is read as a rounded Number, and no
    such index is an array index: the key under 9007199254740993 and the
    value under 9007199254740992 form one annotation, and it is an
    ordinary property of the array, not one of its elements. *)
Lemma parseDDICProps_large_index :
  parseDDICProps (properties [entry "annotationKey.9007199254740993" "K";
                              entry "annotationValue.9007199254740992" "V"])
    = inr (mkDdicProperties (EPValue (JBool false))
             (mkAnnotations []
                [(Some 9007199254740992%N, mkAnnotation (JStr "K") (JStr "V"))])).
Proof. vm_compute. reflexivity. Qed.

End DdicProofs.

Module DdicWitnesses.
Import JS Xml Package Ddic TreeSamples.

Lemma parseDDICProps_annotation_pairs_witness :
  anno_index "annotationValue.7" = Some (false, Elem 7) /\
  parseDDICProps (properties [anno_D; anno_C; anno_B; anno_A])
    = inr (mkDdicProperties (EPValue (JBool false))
             (mkAnnotations [Some (mkAnnotation (JStr "A") (JStr "C"));
                             Some (mkAnnotation (JStr "D") (JStr "B"))] [])).
Proof.
  split.
  { apply (proj1 (proj2 DdicProofs.parseDDICProps_annotation_pairs) _ false "7" 7%N);
      reflexivity. }
  apply (proj2 (proj2 DdicProofs.parseDDICProps_annotation_pairs)).
  apply (Permutation_trans (l' := [anno_A; anno_D; anno_C; anno_B])).
  - apply (Permutation_trans (l' := [anno_D; anno_A; anno_C; anno_B])).
    + apply perm_skip. apply (Permutation_trans (l' := [anno_C; anno_A; anno_B])).
      * apply perm_skip, perm_swap.
      * apply perm_swap.
    + apply perm_swap.
  - apply perm_skip.
    apply (Permutation_trans (l' := [anno_C; anno_D; anno_B])).
    + apply perm_swap.
    + apply (Permutation_trans (l' := [anno_C; anno_B; anno_D])).
      * apply perm_skip, perm_swap.
      * apply perm_swap.
Defined.

Lemma element_props_fields_witness :
  exists p, element_props [("ddicDataType", JStr "CHAR"); ("ddicLength", JStr "10");
                           ("ddicDecimals", JStr "x"); ("ddicIsKey", JStr "true");
                           ("ddicHeadingLength", JStr "9007199254740993")]
              = EPObject p /\ ddicLength p = JNum 10 /\ ddicDecimals p = JNaN
              /\ ddicHeadingLength p = JNum 9007199254740992 /\ ddicIsKey p = true.
Proof.
  destruct (DdicProofs.element_props_fields
              [("ddicDataType", JStr "CHAR"); ("ddicLength", JStr "10");
               ("ddicDecimals", JStr "x"); ("ddicIsKey", JStr "true");
               ("ddicHeadingLength", JStr "9007199254740993")]
              (or_introl eq_refl)) as [p [Hp [Hk Hf]]].
  exists p. split; [exact Hp|].
  inversion Hf as [|f1 fs1 [_ [_ Hlen]] Hf1]; subst.
  inversion Hf1 as [|f2 fs2 [_ [Hdec _]] Hf2]; subst.
  inversion Hf2 as [|f3 fs3 [_ [_ Hhead]] _]; subst.
  split; [|split; [|split]].
  - apply (Hlen "10" 10%N eq_refl); [discriminate | reflexivity].
  - apply (Hdec "x" eq_refl); [discriminate | reflexivity].
  - pose proof (Hhead "9007199254740993" 9007199254740993%N eq_refl
                  ltac:(discriminate) ltac:(reflexivity)) as H.
    cbn [snd] in H. rewrite H. vm_compute. reflexivity.
  - apply Hk; reflexivity.
Defined.

End DdicWitnesses.

(* ------------------------------------------------------------------ *)
(** ** The base URL *)

Module UrlProofs.
Import Config Session Url UrlSamples.

Lemma getBaseUrl_config (rt : runtime) (s : Session) (c : SapConfig) :
  config s = Some c \/ (config s = None /\ getConfig (env s) = inr c) ->
  fst (getBaseUrl rt s) =
  match URL rt (url c) with
  | inr u => inr (origin rt u)
  | inl m => inl (Error ("Invalid URL in configuration: " ++ m))
  end.
Proof.
  unfold getBaseUrl, bind, get, ret, throw, modify.
  intros [H | [H He]]; rewrite H; [|rewrite He];
    destruct (URL rt (url c)); reflexivity.
Qed.



End UrlProofs.

Module UrlWitnesses.
Import Config Session Url UrlSamples.


End UrlWitnesses.

(* ------------------------------------------------------------------ *)
(** ** What the request executor sends *)

Module RequestProofs.
Import Config Session SessionFacts.

Lemma config_of_set_csrf s t : config_of (set_csrf s t) = config_of s.
Proof. destruct s; reflexivity. Qed.

Lemma config_of_set_cookies s t : config_of (set_cookies s t) = config_of s.
Proof. destruct s; reflexivity. Qed.

Lemma config_of_set_axios s b : config_of (set_axios s b) = config_of s.
Proof. destruct s; reflexivity. Qed.

Lemma bootstrap_ok url m p c : adt_request_ok url m p c (bootstrap_request url c).
Proof. repeat split; right; reflexivity. Qed.

Lemma with_token_ok url m p c rq tok :
  adt_request_ok url m p c rq -> rq_method rq = m -> rq_params rq = p ->
  adt_request_ok url m p c (with_token rq tok).
Proof.
  intros (Hu & Ha & Hx & _) Hm Hp; unfold adt_request_ok, with_token; simpl.
  rewrite !SessionProofs.header_set_other by discriminate.
  repeat split; auto.
Qed.

(** The request [buildRequestConfig] builds carries the method, the
    parameters and the authentication headers. *)
Lemma buildRequestConfig_ok url m t d p s c :
  config_of s = Some c ->
  exists rq,
    buildRequestConfig url m t d p s = (inr rq, set_config s (Some c)) /\
    adt_request_ok url m p c rq /\ rq_method rq = m /\ rq_params rq = p.
Proof.
  intros Hc.
  unfold buildRequestConfig, bind at 1.
  rewrite (SessionProofs.getAuthHeaders_step s c Hc).
  unfold bind, get, ret.
  eexists; split; [destruct s; reflexivity|].
  destruct s as [e ax cf tok ck n l]; simpl.
  unfold adt_request_ok; simpl.
  destruct (Str.truthy tok) as [tk|]; destruct (is_post_or_put m);
    destruct (Str.truthy ck) as [co|]; simpl;
    rewrite ?SessionProofs.header_set_other by discriminate;
    repeat split; auto.
Qed.

(** [sendWithCsrfRetry] sends the request, and after a CSRF rejection a
    bootstrap and the retry; nothing else. *)
Lemma sendWithCsrfRetry_requests url m p c rq s :
  config_of s = Some c -> adt_request_ok url m p c rq ->
  rq_method rq = m -> rq_params rq = p ->
  config_of (snd (sendWithCsrfRetry url rq s)) = Some c /\
  exists l, sent (snd (sendWithCsrfRetry url rq s)) = (sent s ++ rq :: l)%list /\
            length l <= 2 /\ Forall (adt_request_ok url m p c) (rq :: l).
Proof.
  intros Hc Hok Hm Hp.
  unfold sendWithCsrfRetry, try_catch.
  rewrite SessionProofs.http_run.
  set (s1 := set_net (set_axios s true) (tl (net s)) (sent s ++ [rq])%list).
  assert (Hc1 : config_of s1 = Some c)
    by (unfold s1; rewrite SessionProofs.config_of_http_state; exact Hc).
  assert (Hs1 : sent s1 = (sent s ++ [rq])%list) by (unfold s1; destruct s; reflexivity).
  destruct (next_outcome (net s)) as [r1|m1 [r1|]]; simpl.
  - split; [exact Hc1|]. exists []; split; [rewrite <- Hs1; destruct s; reflexivity|]; repeat split; auto.
  - destruct (csrf_rejected r1) as [e|[|]].
    + split; [exact Hc1|]. exists []; split; [rewrite <- Hs1; destruct s; reflexivity|]; repeat split; auto.
    + unfold bind.
      rewrite (SessionProofs.fetchCsrfToken_run url s1 c Hc1).
      destruct (exchange_token (next_outcome (net s1))) as [tok|]; cbn -[http].
      * rewrite SessionProofs.http_run.
        split.
        -- unfold s1; destruct s; reflexivity.
        -- exists [bootstrap_request url c; with_token rq tok].
           split; [unfold s1; destruct s; simpl; rewrite <- ?app_assoc; reflexivity|].
           split; [simpl; lia|].
           constructor; [exact Hok|]; constructor; [apply bootstrap_ok|].
           constructor; [apply with_token_ok; assumption|]; constructor.
      * split.
        -- unfold s1; destruct s; reflexivity.
        -- exists [bootstrap_request url c].
           split; [unfold s1; destruct s; simpl; rewrite <- ?app_assoc; reflexivity|].
           split; [simpl; lia|].
           constructor; [exact Hok|]; constructor; [apply bootstrap_ok|]; constructor.
    + split; [exact Hc1|]. exists []; split; [rewrite <- Hs1; destruct s; reflexivity|]; repeat split; auto.
  - split; [exact Hc1|]. exists []; split; [rewrite <- Hs1; destruct s; reflexivity|]; repeat split; auto.
Qed.

(** The token bootstrap of a POST or PUT sends at most the bootstrap
    request; when it fails it has sent it. *)
Lemma ensureCsrfToken_requests url m s c :
  config_of s = Some c ->
  config_of (snd (ensureCsrfToken url m s)) = Some c /\
  ((sent (snd (ensureCsrfToken url m s)) = (sent s ++ [bootstrap_request url c])%list /\
    is_post_or_put m = true) \/
   (sent (snd (ensureCsrfToken url m s)) = sent s /\ fst (ensureCsrfToken url m s) = inr tt)).
Proof.
  intros Hc.
  unfold ensureCsrfToken, bind, get.
  destruct (is_post_or_put m) eqn:Hpm; simpl.
  - destruct (negb (Str.is_truthy (csrfToken s))); simpl.
    + unfold try_catch.
      rewrite (SessionProofs.fetchCsrfToken_run url s c Hc).
      destruct (exchange_token (next_outcome (net s))) as [tok|]; simpl;
        (split; [destruct s; reflexivity|]); left; split; auto; destruct s; reflexivity.
    + split; [exact Hc|]. right; split; reflexivity.
  - split; [exact Hc|]. right; split; reflexivity.
Qed.

(** Without a configuration (none cached and the environment incomplete)
    every step throws before anything is sent. *)
Lemma makeAdtRequest_unconfigured url m t d p s :
  config_of s = None -> sent (snd (makeAdtRequest url m t d p s)) = sent s.
Proof.
  intros Hn.
  assert (Hb : forall s', config_of s' = None -> sent s' = sent s ->
            sent (snd (bind (buildRequestConfig url m t d p)
                            (fun config => sendWithCsrfRetry url config) s')) = sent s).
  { intros s' Hn' Hs'. unfold buildRequestConfig, bind.
    destruct (SessionProofs.getAuthHeaders_none s' Hn') as [e ->]; exact Hs'. }
  unfold makeAdtRequest, bind at 1, ensureCsrfToken, bind at 1, get.
  destruct (is_post_or_put m && negb (Str.is_truthy (csrfToken s))).
  - unfold try_catch, bind at 1, fetchCsrfToken, try_catch, bind at 1,
      createAxiosInstance, modify.
    unfold bind at 1.
    assert (Hn1 : config_of (set_axios s true) = None)
      by (rewrite config_of_set_axios; exact Hn).
    destruct (SessionProofs.getAuthHeaders_none (set_axios s true) Hn1) as [e ->].
    destruct e; simpl; destruct s; reflexivity.
  - unfold ret. apply Hb; auto.
Qed.

(** Every request [makeAdtRequest(url, method, _, _, params)] sends goes
    to [url] and carries the Basic authorization and the client header of
    the configuration in force (the cached one, or the one read from the
    environment): the request itself with [method] and [params] (first
    attempt or the single retry), or the token bootstrap GET. It sends at
    least one request and at most three, four for POST and PUT; with no
    configuration available it sends nothing. *)
Theorem makeAdtRequest_requests url m t d p s :
  exists l, sent (snd (makeAdtRequest url m t d p s)) = (sent s ++ l)%list /\
    match config_of s with
    | Some c => l <> [] /\ length l <= (if is_post_or_put m then 4 else 3) /\
                Forall (adt_request_ok url m p c) l
    | None => l = []
    end.
Proof.
  destruct (config_of s) as [c|] eqn:Hc.
  2: { exists []; rewrite app_nil_r; split; [apply makeAdtRequest_unconfigured; exact Hc | reflexivity]. }
  destruct (ensureCsrfToken_requests url m s c Hc) as [Hc1 Hens].
  unfold makeAdtRequest, bind at 1.
  destruct (ensureCsrfToken url m s) as [[e|[]] s1] eqn:He; simpl in Hc1, Hens.
  - destruct Hens as [[Hs Hpm] | [_ Hr]]; [|discriminate].
    exists [bootstrap_request url c]; cbn [snd]; rewrite Hs, Hpm.
    split; [reflexivity|]. split; [discriminate|]. split; [simpl; lia|].
    constructor; [apply bootstrap_ok | constructor].
  - destruct (buildRequestConfig_ok url m t d p s1 c Hc1) as (rq & Hb & Hok & Hm & Hp).
    cbv beta iota. unfold bind; rewrite Hb.
    assert (Hc2 : config_of (set_config s1 (Some c)) = Some c)
      by apply SessionProofs.config_of_set.
    destruct (sendWithCsrfRetry_requests url m p c rq (set_config s1 (Some c)) Hc2 Hok Hm Hp)
      as [_ (l & Hl & Hlen & Hall)].
    rewrite (proj1 (proj2 (SessionProofs.set_config_fields s1 (Some c)))) in Hl.
    destruct Hens as [[Hs Hpm] | [Hs _]].
    + exists (bootstrap_request url c :: rq :: l).
      rewrite Hl, Hs, <- app_assoc, Hpm.
      split; [reflexivity|]. split; [discriminate|]. split; [simpl; lia|].
      constructor; [apply bootstrap_ok | exact Hall].
    + exists (rq :: l). rewrite Hl, Hs.
      split; [reflexivity|]. split; [discriminate|].
      split; [destruct (is_post_or_put m); simpl; lia | exact Hall].
Qed.

End RequestProofs.

(* ------------------------------------------------------------------ *)
(** ** Percent-encoding and query strings *)

Module EncProofs.
Import JS Enc.

Lemma las_app (a b : string) :
  list_ascii_of_string (a ++ b) = (list_ascii_of_string a ++ list_ascii_of_string b)%list.
Proof. induction a as [|c a IH]; simpl; [reflexivity | rewrite IH; reflexivity]. Qed.

Lemma length_app (a b : string) : String.length (a ++ b) = String.length a + String.length b.
Proof. induction a as [|c a IH]; simpl; [reflexivity | rewrite IH; reflexivity]. Qed.

Lemma hex_digit_inj (n m : nat) :
  n < 16 -> m < 16 -> hex_digit n = hex_digit m -> n = m.
Proof.
  assert (Hall : forallb (fun n => forallb (fun m =>
            implb (Ascii.eqb (hex_digit n) (hex_digit m)) (Nat.eqb n m))
            (seq 0 16)) (seq 0 16) = true) by (vm_compute; reflexivity).
  intros Hn Hm H.
  rewrite forallb_forall in Hall.
  specialize (Hall n (proj2 (in_seq 16 0 n) ltac:(lia))).
  rewrite forallb_forall in Hall.
  specialize (Hall m (proj2 (in_seq 16 0 m) ltac:(lia))).
  rewrite H, Ascii.eqb_refl in Hall; simpl in Hall.
  apply Nat.eqb_eq; exact Hall.
Qed.

Lemma hex_digit_alnum (n : nat) : is_alnum (hex_digit n) = true.
Proof.
  do 16 (destruct n as [|n]; [reflexivity|]). reflexivity.
Qed.

Lemma percent_inj (c d : ascii) : percent c = percent d -> c = d.
Proof.
  unfold percent; intros H; injection H as Hq Hr.
  change (hex_digit (nat_of_ascii c / 16) = hex_digit (nat_of_ascii d / 16)) in Hq.
  change (hex_digit (nat_of_ascii c mod 16) = hex_digit (nat_of_ascii d mod 16)) in Hr.
  pose proof (nat_ascii_bounded c) as Bc; pose proof (nat_ascii_bounded d) as Bd.
  apply hex_digit_inj in Hq;
    [| apply Nat.Div0.div_lt_upper_bound; lia | apply Nat.Div0.div_lt_upper_bound; lia].
  apply hex_digit_inj in Hr; [| apply Nat.mod_upper_bound; lia | apply Nat.mod_upper_bound; lia].
  rewrite <- (ascii_nat_embedding c), <- (ascii_nat_embedding d).
  f_equal.
  rewrite (Nat.div_mod (nat_of_ascii c) 16), (Nat.div_mod (nat_of_ascii d) 16) by lia.
  rewrite Hq, Hr; reflexivity.
Qed.

Lemma percent_prefix (c d : ascii) (x y : string) :
  percent c ++ x = percent d ++ y -> c = d /\ x = y.
Proof.
  intros H.
  change (String "%" (String (hex_digit (nat_of_ascii c / 16))
            (String (hex_digit (nat_of_ascii c mod 16)) x)) =
          String "%" (String (hex_digit (nat_of_ascii d / 16))
            (String (hex_digit (nat_of_ascii d mod 16)) y))) in H.
  injection H as Hq Hr Hx.
  change (hex_digit (nat_of_ascii c / 16) = hex_digit (nat_of_ascii d / 16)) in Hq.
  change (hex_digit (nat_of_ascii c mod 16) = hex_digit (nat_of_ascii d mod 16)) in Hr.
  split; [|exact Hx]. apply percent_inj; unfold percent; rewrite Hq, Hr; reflexivity.
Qed.

(** An encoder that maps each character to a non-empty code, no code
    being a proper prefix of another followed by more output, is
    injective. *)
Section PrefixCodes.

Variable f : ascii -> string.
Hypothesis f_prefix : forall c d x y, f c ++ x = f d ++ y -> c = d /\ x = y.
Hypothesis f_nonempty : forall c, f c <> "".

Lemma prefix_code_inj (enc : string -> string) :
  enc "" = "" -> (forall c s, enc (String c s) = f c ++ enc s) ->
  forall s1 s2, enc s1 = enc s2 -> s1 = s2.
Proof.
  intros H0 HS s1; induction s1 as [|c s1 IH]; intros [|d s2] H.
  - reflexivity.
  - rewrite H0, HS in H. destruct (f d) eqn:E; [exfalso; exact (f_nonempty d E)|discriminate].
  - rewrite H0, HS in H. destruct (f c) eqn:E; [exfalso; exact (f_nonempty c E)|discriminate].
  - rewrite !HS in H. apply f_prefix in H as [-> H]. rewrite (IH s2 H); reflexivity.
Qed.

End PrefixCodes.

Lemma uri_code_prefix c d x y :
  (if uri_unreserved c then String c "" else percent c) ++ x =
  (if uri_unreserved d then String d "" else percent d) ++ y -> c = d /\ x = y.
Proof.
  destruct (uri_unreserved c) eqn:Hc, (uri_unreserved d) eqn:Hd; simpl; intros H.
  - injection H as -> ->; auto.
  - injection H as -> _; discriminate Hc.
  - injection H as <- _; discriminate Hd.
  - exact (percent_prefix c d x y H).
Qed.

Lemma form_code_prefix c d x y :
  (if form_unreserved c then String c "" else if Ascii.eqb c " " then "+" else percent c) ++ x =
  (if form_unreserved d then String d "" else if Ascii.eqb d " " then "+" else percent d) ++ y ->
  c = d /\ x = y.
Proof.
  destruct (form_unreserved c) eqn:Hc, (form_unreserved d) eqn:Hd.
  - simpl; intros H; injection H as -> ->; auto.
  - destruct (Ascii.eqb d " "); simpl; intros H; injection H as -> _; discriminate Hc.
  - destruct (Ascii.eqb c " "); simpl; intros H; injection H as <- _; discriminate Hd.
  - destruct (Ascii.eqb c " ") eqn:Ec, (Ascii.eqb d " ") eqn:Ed; intros H.
    + apply Ascii.eqb_eq in Ec, Ed; subst; simpl in H; injection H as ->; auto.
    + discriminate H.
    + discriminate H.
    + exact (percent_prefix c d x y H).
Qed.

Lemma encodeURIComponent_chars (s : string) :
  Forall (fun ch => uri_unreserved ch = true \/ ch = "%"%char)
         (list_ascii_of_string (encodeURIComponent s)).
Proof.
  induction s as [|c s IH]; simpl; [constructor|].
  rewrite las_app; apply Forall_app; split; [|exact IH].
  destruct (uri_unreserved c) eqn:Hc; simpl.
  - repeat constructor; auto.
  - unfold uri_unreserved.
    constructor; [right; reflexivity|].
    constructor; [left; rewrite hex_digit_alnum; reflexivity|].
    constructor; [left; rewrite hex_digit_alnum; reflexivity|].
    constructor.
Qed.

Lemma form_encode_chars (s : string) :
  Forall (fun ch => form_unreserved ch = true \/ ch = "+"%char \/ ch = "%"%char)
         (list_ascii_of_string (form_encode s)).
Proof.
  induction s as [|c s IH]; simpl; [constructor|].
  rewrite las_app; apply Forall_app; split; [|exact IH].
  destruct (form_unreserved c) eqn:Hc; [simpl; repeat constructor; auto|].
  destruct (Ascii.eqb c " "); simpl; [constructor; [right; left; reflexivity | constructor]|].
  unfold form_unreserved.
  constructor; [right; right; reflexivity|].
  constructor; [left; rewrite hex_digit_alnum; reflexivity|].
  constructor; [left; rewrite hex_digit_alnum; reflexivity|].
  constructor.
Qed.

Lemma length_encodeURIComponent (s : string) :
  String.length s <= String.length (encodeURIComponent s).
Proof.
  induction s as [|c s IH]; simpl; [lia|].
  rewrite length_app. destruct (uri_unreserved c); simpl; lia.
Qed.

(** Splitting two strings at a separator that neither prefix contains. *)
Lemma split_at_sep (sep : ascii) (a b x y : string) :
  ~ In sep (list_ascii_of_string a) -> ~ In sep (list_ascii_of_string b) ->
  a ++ String sep x = b ++ String sep y -> a = b /\ x = y.
Proof.
  revert b; induction a as [|c a IH]; intros [|d b] Ha Hb H; simpl in *.
  - injection H as ->; auto.
  - injection H as <- _. exfalso; apply Hb; left; reflexivity.
  - injection H as -> _. exfalso; apply Ha; left; reflexivity.
  - injection H as -> H.
    destruct (IH b (fun h => Ha (or_intror h)) (fun h => Hb (or_intror h)) H) as [-> ->].
    auto.
Qed.

Lemma form_encode_no (ch : ascii) (s : string) :
  form_unreserved ch = false -> ch <> "+"%char -> ch <> "%"%char ->
  ~ In ch (list_ascii_of_string (form_encode s)).
Proof.
  intros H1 H2 H3 Hin.
  pose proof (proj1 (Forall_forall _ _) (form_encode_chars s) ch Hin) as [H|[H|H]];
    [rewrite H1 in H; discriminate | contradiction | contradiction].
Qed.

Lemma form_encode_inj (s1 s2 : string) : form_encode s1 = form_encode s2 -> s1 = s2.
Proof.
  apply (prefix_code_inj
           (fun c => if form_unreserved c then String c ""
                     else if Ascii.eqb c " " then "+" else percent c)).
  - exact form_code_prefix.
  - intros c; destruct (form_unreserved c); [discriminate|].
    destruct (Ascii.eqb c " "); discriminate.
  - reflexivity.
  - reflexivity.
Qed.

Lemma pair_no_amp (kv : string * string) :
  ~ In "&"%char (list_ascii_of_string (form_encode (fst kv) ++ "=" ++ form_encode (snd kv))).
Proof.
  rewrite las_app; simpl. intros Hin.
  apply in_app_or in Hin as [Hin|[Hin|Hin]];
    [revert Hin; apply form_encode_no; [reflexivity|discriminate|discriminate]
    |discriminate
    |revert Hin; apply form_encode_no; [reflexivity|discriminate|discriminate]].
Qed.

Lemma pair_inj (kv1 kv2 : string * string) (x y : string) :
  form_encode (fst kv1) ++ "=" ++ form_encode (snd kv1) ++ x =
  form_encode (fst kv2) ++ "=" ++ form_encode (snd kv2) ++ y ->
  fst kv1 = fst kv2 /\ form_encode (snd kv1) ++ x = form_encode (snd kv2) ++ y.
Proof.
  intros H. apply split_at_sep in H as [Hk Hv];
    [| apply form_encode_no; [reflexivity|discriminate|discriminate]
     | apply form_encode_no; [reflexivity|discriminate|discriminate]].
  split; [apply form_encode_inj; exact Hk | exact Hv].
Qed.

Lemma append_nil_r (s : string) : s ++ "" = s.
Proof. induction s as [|c s IH]; simpl; [reflexivity | rewrite IH; reflexivity]. Qed.

Lemma append_assoc (a b c : string) : (a ++ b) ++ c = a ++ b ++ c.
Proof. induction a as [|x a IH]; simpl; [reflexivity | rewrite IH; reflexivity]. Qed.

Lemma join_cons (sep x : string) (xs : list string) :
  Str.join sep (x :: xs) = match xs with [] => x | _ => x ++ sep ++ Str.join sep xs end.
Proof. destruct xs; reflexivity. Qed.

Lemma pair_nonempty (kv : string * string) (z : string) :
  (form_encode (fst kv) ++ "=" ++ form_encode (snd kv)) ++ z <> "".
Proof. rewrite append_assoc; destruct (form_encode (fst kv)); discriminate. Qed.

Lemma pair_eq (kv1 kv2 : string * string) :
  form_encode (fst kv1) ++ "=" ++ form_encode (snd kv1) =
  form_encode (fst kv2) ++ "=" ++ form_encode (snd kv2) -> kv1 = kv2.
Proof.
  intros H.
  rewrite <- (append_nil_r (form_encode (snd kv1))), <- (append_nil_r (form_encode (snd kv2))) in H.
  apply pair_inj in H as [Hk Hv]. rewrite !append_nil_r in Hv.
  apply form_encode_inj in Hv. destruct kv1, kv2; simpl in *; subst; reflexivity.
Qed.

Lemma pair_not_prefix (kv1 kv2 : string * string) (j : string) :
  form_encode (fst kv1) ++ "=" ++ form_encode (snd kv1) <>
  (form_encode (fst kv2) ++ "=" ++ form_encode (snd kv2)) ++ "&" ++ j.
Proof.
  intros H.
  rewrite !append_assoc in H.
  rewrite <- (append_nil_r (form_encode (snd kv1))) in H.
  apply pair_inj in H as [_ Hv]. rewrite append_nil_r in Hv.
  apply (form_encode_no "&" (snd kv1)); [reflexivity|discriminate|discriminate|].
  rewrite Hv, las_app; apply in_or_app; right; left; reflexivity.
Qed.

Lemma own_key_order_fold_perm (fs : list (string * jsval)) :
  Permutation
    (fold_right (fun kv acc =>
                   match Ddic.array_index (fst kv) with
                   | Some n => Ddic.insert_by_index kv n acc
                   | None => acc
                   end) [] fs)
    (filter (fun kv => match Ddic.array_index (fst kv) with Some _ => true | None => false end) fs).
Proof.
  assert (Hins : forall (kv : string * jsval) n l,
             Permutation (Ddic.insert_by_index kv n l) (kv :: l)).
  { intros kv n l; induction l as [|kv' l IH]; simpl; [reflexivity|].
    destruct (Ddic.array_index (fst kv')) as [n'|]; [|reflexivity].
    destruct (N.ltb n n'); [reflexivity|].
    rewrite IH; apply perm_swap. }
  induction fs as [|kv fs IH]; simpl; [reflexivity|].
  destruct (Ddic.array_index (fst kv)) as [n|]; [|exact IH].
  rewrite Hins; apply perm_skip; exact IH.
Qed.

Lemma filter_split_perm {A} (f : A -> bool) (l : list A) :
  Permutation (filter f l ++ filter (fun x => negb (f x)) l) l.
Proof.
  induction l as [|x l IH]; simpl; [reflexivity|].
  destruct (f x); simpl.
  - apply perm_skip; exact IH.
  - rewrite <- Permutation_middle; apply perm_skip; exact IH.
Qed.

(** [Object.entries] lists every own property exactly once. *)
Lemma own_key_order_perm (fs : list (string * jsval)) :
  Permutation (Ddic.own_key_order fs) fs.
Proof.
  unfold Ddic.own_key_order.
  rewrite own_key_order_fold_perm.
  etransitivity; [|apply (filter_split_perm
    (fun kv => match Ddic.array_index (fst kv) with Some _ => true | None => false end))].
  apply Permutation_app_head.
  erewrite filter_ext; [reflexivity|].
  intros kv; cbv beta; destruct (Ddic.array_index (fst kv)); reflexivity.
Qed.

Lemma form_serialize_nil (l : list (string * string)) : form_serialize l = "" -> l = [].
Proof.
  unfold form_serialize. destruct l as [|kv l]; [reflexivity|].
  cbn [map]; rewrite join_cons.
  destruct (map _ l) eqn:E; intros H.
  - exfalso; apply (pair_nonempty kv ""); rewrite append_nil_r; exact H.
  - exfalso; exact (pair_nonempty kv _ H).
Qed.

(** Encoding. [encodeURIComponent] is injective: two different names
    never give the same encoded text. *)
Theorem encodeURIComponent_injective (s1 s2 : string) :
  encodeURIComponent s1 = encodeURIComponent s2 <-> s1 = s2.
Proof.
  split; [|intros ->; reflexivity].
  apply (prefix_code_inj (fun c => if uri_unreserved c then String c "" else percent c)).
  - exact uri_code_prefix.
  - intros c; destruct (uri_unreserved c); discriminate.
  - reflexivity.
  - reflexivity.
Qed.

(** The output of [encodeURIComponent] consists of unreserved characters
    and "%" only; in particular it holds none of the delimiters
    "&", "=", "#", "?", "/", "+" and space, so an encoded argument stays
    one query value or one path segment. *)
Theorem encodeURIComponent_delimiters (s : string) :
  Forall (fun ch => uri_unreserved ch = true \/ ch = "%"%char)
         (list_ascii_of_string (encodeURIComponent s)) /\
  Forall (fun ch => ~ In ch (list_ascii_of_string (encodeURIComponent s)))
         (list_ascii_of_string "&=#?/+ ").
Proof.
  pose proof (encodeURIComponent_chars s) as H.
  split; [exact H|].
  assert (Hno : forall ch, uri_unreserved ch = false -> ch <> "%"%char ->
                  ~ In ch (list_ascii_of_string (encodeURIComponent s))).
  { intros ch H1 H2 Hin.
    destruct (proj1 (Forall_forall _ _) H ch Hin) as [H3|H3];
      [rewrite H1 in H3; discriminate | contradiction]. }
  repeat constructor; apply Hno; (reflexivity || discriminate).
Qed.

(** [encodeURIComponent] leaves a name unchanged exactly when all its
    characters are unreserved; a name such as "$TMP" or "/DMO/FLIGHT"
    is sent in encoded form. *)
Theorem encodeURIComponent_identity (s : string) :
  encodeURIComponent s = s <-> forallb uri_unreserved (list_ascii_of_string s) = true.
Proof.
  induction s as [|c s IH]; simpl; [split; reflexivity|].
  destruct (uri_unreserved c) eqn:Hc; simpl.
  - split.
    + intros H; injection H as H; apply IH; exact H.
    + intros H; rewrite (proj2 IH H); reflexivity.
  - split; [|discriminate].
    intros H; exfalso.
    apply (f_equal String.length) in H; simpl in H.
    pose proof (length_encodeURIComponent s); lia.
Qed.

(** [formatQS] returns the empty string exactly when every property is
    undefined, null or an empty array. *)
Theorem formatQS_empty (params : list (string * jsval)) :
  formatQS params = "" <->
  Forall (fun kv => match snd kv with JUndefined | JNull | JArr [] => True | _ => False end)
         params.
Proof.
  unfold formatQS.
  assert (Hq : forall kv, qs_pairs kv = [] <->
                 match snd kv with JUndefined | JNull | JArr [] => True | _ => False end).
  { intros [k v]; destruct v as [| | | | | | |[|x xs]| | |]; simpl; split;
      (discriminate || tauto || reflexivity || (intros []; fail)). }
  split.
  - intros H; apply form_serialize_nil in H.
    apply (Permutation_Forall (own_key_order_perm params)).
    apply Forall_forall; intros kv Hin; apply Hq.
    destruct (qs_pairs kv) as [|x l] eqn:E; [reflexivity|].
    exfalso. assert (Hx : In x (flat_map qs_pairs (Ddic.own_key_order params))).
    { apply in_flat_map; exists kv; rewrite E; split; [exact Hin | left; reflexivity]. }
    rewrite H in Hx; exact Hx.
  - intros H.
    apply (Permutation_Forall (Permutation_sym (own_key_order_perm params))) in H.
    assert (Hnil : flat_map qs_pairs (Ddic.own_key_order params) = []).
    { induction H as [|kv l Hkv _ IH]; [reflexivity|].
      simpl; rewrite (proj2 (Hq kv) Hkv), IH; reflexivity. }
    rewrite Hnil; reflexivity.
Qed.

End EncProofs.

(* ------------------------------------------------------------------ *)
(** ** Tool handlers *)

Module HandlerProofs.
Import Config Session SessionFacts Url JS Dispatch Enc Handlers.

Lemma getBaseUrl_run (rt : runtime) (s : Session) (c : SapConfig) :
  config_of s = Some c ->
  getBaseUrl rt s =
    (match URL rt (url c) with
     | inr u => inr (origin rt u)
     | inl m => inl (Error ("Invalid URL in configuration: " ++ m))
     end, set_config s (Some c)).
Proof.
  destruct s as [e ax [c0|] tok ck n l]; unfold config_of; simpl.
  - intros [= <-]; unfold getBaseUrl, bind, Session.get, ret, throw; simpl.
    destruct (URL rt (url c0)); reflexivity.
  - destruct (getConfig e) eqn:Hg; [discriminate|].
    intros [= <-]; unfold getBaseUrl, bind, Session.get, ret, throw, modify; simpl.
    rewrite Hg; destruct (URL rt (url s)); reflexivity.
Qed.

(** Without its required argument (absent, empty, or no arguments at
    all) a handler answers with an error envelope naming the argument,
    without reading the configuration or sending anything: the session
    is left as it was. *)
Theorem handlers_missing_argument (rt : runtime) fp sf (args : jsval) (s : Session) :
  (truthy (opt_get args "query") = false ->
   handleSearchObject rt fp sf args s =
     (inr (mkEnvelope true "text" (JStr "Error: MCP error -32602: Search query is required")), s)) /\
  (truthy (opt_get args "package_name") = false ->
   handleGetPackage rt fp sf args s =
     (inr (mkEnvelope true "text" (JStr "Error: MCP error -32602: Package name is required")), s)) /\
  (truthy (opt_get args "table_name") = false ->
   handleGetTableContents rt fp sf args s =
     (inr (mkEnvelope true "text"
        (JStr ("Error: GetTableContents requires custom SAP service '/z_mcp_abap_adt/z_tablecontent/'. "
               ++ "Original error: McpError: MCP error -32602: Table name is required"))), s)).
Proof.
  split; [|split]; intros H.
  - unfold handleSearchObject; rewrite H; reflexivity.
  - unfold handleGetPackage; rewrite H; reflexivity.
  - unfold handleGetTableContents; rewrite H; reflexivity.
Qed.

(** The CDS query: with the three flags absent, [handleGetCdsView] asks
    for getTargetForAssociation=false, getExtensionViews=true and
    getSecondaryObjects=true, followed by the form-encoded path; a flag
    given as [null] is not defaulted but left out of the query. *)
Theorem cds_query_defaults (args p : jsval) :
  get args "getTargetForAssociation" = JUndefined ->
  get args "getSecondaryObjects" = JUndefined ->
  get args "path" = p -> is_nullish p = false -> (forall xs, p <> JArr xs) ->
  (get args "getExtensionViews" = JUndefined ->
   cds_query args =
     "getTargetForAssociation=false&getExtensionViews=true&getSecondaryObjects=true&path="
     ++ form_encode (Ddic.to_string p)) /\
  (get args "getExtensionViews" = JNull ->
   cds_query args =
     "getTargetForAssociation=false&getSecondaryObjects=true&path="
     ++ form_encode (Ddic.to_string p)).
Proof.
  intros Ht Hs Hp Hn Ha.
  split; intros He; unfold cds_query; rewrite Ht, Hs, Hp, He;
    destruct p as [| | | | | | |xs| | |]; try discriminate Hn;
    try (exfalso; exact (Ha xs eq_refl)); reflexivity.
Qed.

Lemma respond_state fp sf r t s : snd (respond fp sf r t s) = s.
Proof. reflexivity. Qed.

(** A [try_catch] whose first step succeeds goes on with the rest. *)
Lemma try_catch_bind_ok {A B} (m1 : M B) (g : B -> M A) (h : error -> M A)
    (s s1 : Session) (b : B) :
  m1 s = (inr b, s1) -> try_catch (bind m1 g) h s = try_catch (g b) h s1.
Proof. intros H1; unfold try_catch, bind; rewrite H1; reflexivity. Qed.

(** The state after a handler body: the one its request leaves. *)
Lemma handler_body_state {A C} (req : M C) (mk : C -> M A) (h : error -> M A) (s : Session) :
  (forall x s', snd (mk x s') = s') -> (forall e s', snd (h e s') = s') ->
  snd (try_catch (bind req mk) h s) = snd (req s).
Proof.
  intros Hf Hh; unfold try_catch, bind.
  destruct (req s) as [[e|x] s2]; [apply Hh|].
  pose proof (Hf x s2) as Hs.
  destruct (mk x s2) as [[e|a] s3]; simpl in *; [rewrite Hh|]; exact Hs.
Qed.







(** [getBaseUrl] loads the configuration from [process.env] once and keeps
    it: a later change of the environment is not seen until [cleanup]
    drops the cached configuration. *)
Theorem getBaseUrl_caches_config (rt : runtime) (s : Session) (e2 : Env)
    (c1 c2 : SapConfig) (u1 : URLRecord) :
  config s = None -> getConfig (env s) = inr c1 -> getConfig e2 = inr c2 ->
  URL rt (url c1) = inr u1 ->
  fst (getBaseUrl rt s) = inr (origin rt u1) /\
  fst (getBaseUrl rt (set_env (snd (getBaseUrl rt s)) e2)) = inr (origin rt u1) /\
  fst (getBaseUrl rt (cleanup (set_env (snd (getBaseUrl rt s)) e2))) =
    match URL rt (url c2) with
    | inr u => inr (origin rt u)
    | inl m => inl (Error ("Invalid URL in configuration: " ++ m))
    end.
Proof.
  intros Hn He1 He2 Hu.
  assert (Hc : config_of s = Some c1) by (unfold config_of; rewrite Hn, He1; reflexivity).
  rewrite (getBaseUrl_run rt s c1 Hc), Hu; cbn [fst snd].
  split; [reflexivity|]. split.
  - rewrite (UrlProofs.getBaseUrl_config rt (set_env (set_config s (Some c1)) e2) c1
               (or_introl eq_refl)), Hu; reflexivity.
  - apply (UrlProofs.getBaseUrl_config rt (cleanup (set_env (set_config s (Some c1)) e2)) c2
             (or_intror (conj eq_refl He2))).
Qed.

(** C8 (counterexample): [handleGetCdsView] is a transforming operation
    ([parseDdicElement]) that does not honour raw mode: with
    [RETURN_RAW_XML] set to "true", the text it returns is the element
    serialised as JSON, not the response body [cds_xml]. *)
Example handleGetCdsView_ignores_raw_mode :
  Config.RETURN_RAW_XML (Session.env HandlerSamples.s_cds_raw) = Some "true" /\
  exists t,
    fst (handleGetCdsView UrlSamples.node18 HandlerSamples.cds_parse Json.stringify
           HandlerSamples.cds_args HandlerSamples.s_cds_raw)
      = inr (mkEnvelope false "text" (JStr t))
    /\ t = Str.join Json.nl
             ["{";
              "  " ++ Json.quote "type" ++ ": " ++ Json.quote "DDLS/DF" ++ ",";
              "  " ++ Json.quote "name" ++ ": " ++ Json.quote "ZI_SALES" ++ ",";
              "  " ++ Json.quote "properties" ++ ": {";
              "    " ++ Json.quote "elementProps" ++ ": false,";
              "    " ++ Json.quote "annotations" ++ ": []";
              "  },";
              "  " ++ Json.quote "children" ++ ": []";
              "}"]
    /\ t <> HandlerSamples.cds_xml.
Proof.
  split; [reflexivity|].
  eexists; split; [vm_compute; reflexivity|].
  split; [vm_compute; reflexivity|].
  vm_compute; discriminate.
Qed.

End HandlerProofs.

Module ConfigProofs.
Import Config Session SessionFacts.

Lemma getConfig_inl e m : getConfig e = inl m -> m = missing_vars_msg.
Proof.
  unfold getConfig.
  destruct (Str.truthy (SAP_URL e)), (Str.truthy (SAP_USERNAME e)),
    (Str.truthy (SAP_PASSWORD e)), (Str.truthy (SAP_CLIENT e));
    intros H; first [discriminate H | injection H as H; auto].
Qed.

(** [getConfig] succeeds exactly when the four variables SAP_URL,
    SAP_USERNAME, SAP_PASSWORD and SAP_CLIENT are set and non-empty, and
    the configuration holds their values unchanged; otherwise it throws
    the missing-variables error. *)
Theorem getConfig_spec (e : Env) :
  (forall c, getConfig e = inr c <->
     SAP_URL e = Some (url c) /\ url c <> "" /\
     SAP_USERNAME e = Some (username c) /\ username c <> "" /\
     SAP_PASSWORD e = Some (password c) /\ password c <> "" /\
     SAP_CLIENT e = Some (client c) /\ client c <> "") /\
  (forall m, getConfig e = inl m -> m = missing_vars_msg).
Proof.
  split; [|exact (getConfig_inl e)].
  intros [u n p cl]; simpl.
  assert (Ht : forall o v, Str.truthy o = Some v <-> o = Some v /\ v <> "").
  { intros [o|] v; simpl; [|split; [discriminate|intros [H _]; discriminate]].
    destruct (String.eqb o "") eqn:E.
    - apply String.eqb_eq in E; subst o; split; [discriminate|].
      intros [H1 H2]; injection H1 as <-; contradiction.
    - apply String.eqb_neq in E; split.
      + intros H; injection H as <-; auto.
      + intros [H1 _]; injection H1 as <-; reflexivity. }
  split.
  - intros H; unfold getConfig in H.
    destruct (Str.truthy (SAP_URL e)) as [u'|] eqn:E1, (Str.truthy (SAP_USERNAME e)) as [n'|] eqn:E2,
      (Str.truthy (SAP_PASSWORD e)) as [p'|] eqn:E3, (Str.truthy (SAP_CLIENT e)) as [c'|] eqn:E4;
      try discriminate H.
    injection H as <- <- <- <-.
    apply Ht in E1, E2, E3, E4. intuition.
  - intros (H1 & H2 & H3 & H4 & H5 & H6 & H7 & H8).
    assert (T1 : Str.truthy (SAP_URL e) = Some u) by (apply Ht; auto).
    assert (T2 : Str.truthy (SAP_USERNAME e) = Some n) by (apply Ht; auto).
    assert (T3 : Str.truthy (SAP_PASSWORD e) = Some p) by (apply Ht; auto).
    assert (T4 : Str.truthy (SAP_CLIENT e) = Some cl) by (apply Ht; auto).
    unfold getConfig; rewrite T1, T2, T3, T4; reflexivity.
Qed.

(** With no configuration cached and none in the environment,
    [makeAdtRequest] sends nothing and throws: for a POST or PUT without a
    cached token the token bootstrap fails first and the error is
    "CSRF token is required ...", masking the missing variables; otherwise
    it is the missing-variables error itself. *)
Theorem makeAdtRequest_unconfigured_error url m t d p (s : Session) :
  config_of s = None ->
  makeAdtRequest url m t d p s =
    if is_post_or_put m && negb (Str.is_truthy (csrfToken s))
    then (inl (Error csrf_required_msg), set_axios s true)
    else (inl (Error missing_vars_msg), s).
Proof.
  destruct s as [e ax [c0|] tok ck n l]; unfold config_of; simpl; [discriminate|].
  destruct (getConfig e) as [msg|c] eqn:Hg; [|discriminate]. intros _.
  pose proof (getConfig_inl _ _ Hg); subst msg.
  unfold makeAdtRequest, ensureCsrfToken, buildRequestConfig, fetchCsrfToken, getAuthHeaders,
    try_catch, bind, get, ret, throw, modify, createAxiosInstance, set_axios; simpl.
  destruct (is_post_or_put m && negb (Str.is_truthy tok)); simpl; rewrite Hg; reflexivity.
Qed.

End ConfigProofs.


Module XmlPathProofs.
Import JS Xml.

Lemma walk_app (obj : jsval) (p q : list string) :
  walk obj (p ++ q) = match walk obj p with Some v => walk v q | None => None end.
Proof.
  revert obj; induction p as [|k p IH]; intros obj; [reflexivity|].
  simpl. destruct (truthy obj && is_object_type obj && has obj k); [apply IH|reflexivity].
Qed.

(** [xmlNode] and [xmlArray] follow a path one segment after the other:
    on [p ++ q] they read [q] from the node the loop reaches at the end of
    [p], and give [undefined] (for [xmlArray], no element) as soon as a
    segment of [p] is missing. The [_text] unwrapping is done once, at the
    end of the whole path. *)
Theorem xmlNode_path_app (obj : jsval) (p q : list string) :
  xmlNode obj (p ++ q) = match walk obj p with Some v => xmlNode v q | None => JUndefined end /\
  xmlArray obj (p ++ q) = match walk obj p with Some v => xmlArray v q | None => [] end.
Proof.
  assert (H : xmlNode obj (p ++ q) =
              match walk obj p with Some v => xmlNode v q | None => JUndefined end).
  { unfold xmlNode. rewrite walk_app. destruct (walk obj p); reflexivity. }
  split; [exact H|].
  unfold xmlArray. rewrite H. destruct (walk obj p); reflexivity.
Qed.

End XmlPathProofs.

Module SearchProofs.
Import JS Xml Package Handlers.

Lemma map_r_Forall2 (f : jsval -> result jsval) (xs ys : list jsval) :
  map_r f xs = inr ys -> Forall2 (fun x y => f x = inr y) xs ys.
Proof.
  revert ys; induction xs as [|x xs IH]; intros ys H; simpl in H.
  - injection H as <-; constructor.
  - unfold rbind in H. destruct (f x) as [e|y] eqn:Ef; [discriminate|].
    destruct (map_r f xs) as [e|ys'] eqn:Er; [discriminate|].
    injection H as <-. constructor; [exact Ef|apply IH; reflexivity].
Qed.

(** A successful [transformSearchResults] reports as [totalCount] the
    number of results it lists, and every result is an object with the
    fields name, type, uri, description and packageName in this order,
    each a truthy attribute value or the empty string (never undefined). *)
Theorem transformSearchResults_shape (parsed v : jsval) :
  transformSearchResults parsed = inr v ->
  exists results,
    v = JObj [("type", JStr "search_results");
              ("totalCount", JNum (Z.of_nat (length results)));
              ("results", JArr results)] /\
    Forall (fun r => exists fs, r = JObj fs /\
              map fst fs = ["name"; "type"; "uri"; "description"; "packageName"] /\
              Forall (fun kv => truthy (snd kv) = true \/ snd kv = JStr "") fs) results.
Proof.
  unfold transformSearchResults, rbind.
  destruct (get_strict parsed "adtcore:objectReferences") as [e|r]; [discriminate|].
  match goal with |- context [map_r ?f ?xs] => destruct (map_r f xs) as [e|results] eqn:E end;
    [discriminate|].
  intros H; injection H as <-.
  apply map_r_Forall2 in E.
  exists results; split.
  - rewrite (Forall2_length E); reflexivity.
  - clear -E. induction E as [|x y xs ys Hxy _ IH]; constructor; [|exact IH].
    destruct (get_strict x "_attributes") as [e|a]; [discriminate|].
    injection Hxy as <-.
    eexists; split; [reflexivity|]. split; [reflexivity|].
    assert (Hor : forall w, truthy (or w (JStr "")) = true \/ or w (JStr "") = JStr "").
    { intros w; unfold or; destruct (truthy w) eqn:Ew; [left; exact Ew|right; reflexivity]. }
    repeat (apply Forall_cons; [apply Hor|]); apply Forall_nil.
Qed.

End SearchProofs.

Module HandlerWitnesses.
Import Config Session SessionFacts Url JS Dispatch Enc Handlers HandlerSamples.

Lemma cds_query_defaults_witness :
  cds_query (JObj [("path", JStr "zi_flight")]) =
    "getTargetForAssociation=false&getExtensionViews=true&getSecondaryObjects=true&path=zi_flight" /\
  cds_query (JObj [("path", JStr "zi flight"); ("getExtensionViews", JNull)]) =
    "getTargetForAssociation=false&getSecondaryObjects=true&path=zi+flight".
Proof.
  split.
  - rewrite (proj1 (HandlerProofs.cds_query_defaults (JObj [("path", JStr "zi_flight")])
              (JStr "zi_flight") eq_refl eq_refl eq_refl eq_refl
              ltac:(intros xs H; discriminate H)) eq_refl).
    vm_compute; reflexivity.
  - rewrite (proj2 (HandlerProofs.cds_query_defaults
              (JObj [("path", JStr "zi flight"); ("getExtensionViews", JNull)])
              (JStr "zi flight") eq_refl eq_refl eq_refl eq_refl
              ltac:(intros xs H; discriminate H)) eq_refl).
    vm_compute; reflexivity.
Defined.

Lemma getBaseUrl_caches_config_witness :
  fst (getBaseUrl UrlSamples.node18 s_unloaded) = inr "https://sap.example.com:44300" /\
  fst (getBaseUrl UrlSamples.node18 (set_env (snd (getBaseUrl UrlSamples.node18 s_unloaded)) env_b))
    = inr "https://sap.example.com:44300" /\
  fst (getBaseUrl UrlSamples.node18 (cleanup (set_env (snd (getBaseUrl UrlSamples.node18 s_unloaded)) env_b)))
    = inr "https://b.example.com".
Proof.
  pose proof (HandlerProofs.getBaseUrl_caches_config UrlSamples.node18 s_unloaded env_b cfg_sap
                (mkConfig "https://b.example.com" "DEVELOPER" "secret" "100") url_sap
                eq_refl ltac:(vm_compute; reflexivity) ltac:(vm_compute; reflexivity)
                ltac:(vm_compute; reflexivity)) as (H1 & H2 & H3).
  split; [rewrite H1; vm_compute; reflexivity|].
  split; [rewrite H2; vm_compute; reflexivity|].
  rewrite H3; vm_compute; reflexivity.
Defined.

Lemma makeAdtRequest_unconfigured_error_witness :
  makeAdtRequest SessionSamples.url0 "POST" 30000 None None s_empty
    = (inl (Error csrf_required_msg), set_axios s_empty true) /\
  makeAdtRequest SessionSamples.url0 "GET" 30000 None None s_empty
    = (inl (Error missing_vars_msg), s_empty).
Proof.
  split.
  - rewrite (ConfigProofs.makeAdtRequest_unconfigured_error SessionSamples.url0 "POST" 30000 None
               None s_empty ltac:(vm_compute; reflexivity)); reflexivity.
  - rewrite (ConfigProofs.makeAdtRequest_unconfigured_error SessionSamples.url0 "GET" 30000 None
               None s_empty ltac:(vm_compute; reflexivity)); reflexivity.
Defined.

Lemma transformSearchResults_shape_witness :
  exists v, transformSearchResults search_tree = inr v /\
  exists results,
    v = JObj [("type", JStr "search_results");
              ("totalCount", JNum (Z.of_nat (length results)));
              ("results", JArr results)] /\
    Forall (fun r => exists fs, r = JObj fs /\
              map fst fs = ["name"; "type"; "uri"; "description"; "packageName"] /\
              Forall (fun kv => truthy (snd kv) = true \/ snd kv = JStr "") fs) results.
Proof.
  eexists; split; [vm_compute; reflexivity|].
  apply (SearchProofs.transformSearchResults_shape search_tree); vm_compute; reflexivity.
Defined.

End HandlerWitnesses.
